(** * Dice job automation: eligibility screening, application run, queue dedup

    Shallow embedding of [scripts/apply_job.py] and [scripts/scrape_dice.py].

    Python [str] values are sequences of Unicode code points, modelled as
    [list N].  Everything the application script asks of the browser and of
    the driver installer is answered by an explicit environment, and the
    statements about it hold in every environment.  The job queue is a
    worksheet passed through the discovery script as a state. *)

From Stdlib Require Import ZArith NArith Ascii String List Bool Lia Permutation.
From Stdlib Require Import DecimalString.
From stdpp Require Import base decidable option list gmap.
Import ListNotations.

Local Open Scope N_scope.

(** ** Python strings *)

Module PyStr.

(** A Python string: its code points, in order. *)
Abbreviation pystr := (list N).

(** The code points of an ASCII literal of the source. *)
Definition py (s : string) : pystr := map N_of_ascii (list_ascii_of_string s).

(** [str.isspace] on one code point (CPython's [_PyUnicode_IsWhitespace]). *)
Definition is_whitespace (c : N) : bool :=
  ((0x09 <=? c) && (c <=? 0x0D)) || ((0x1C <=? c) && (c <=? 0x20))
  || (c =? 0x85) || (c =? 0xA0) || (c =? 0x1680)
  || ((0x2000 <=? c) && (c <=? 0x200A))
  || (c =? 0x2028) || (c =? 0x2029) || (c =? 0x202F) || (c =? 0x205F)
  || (c =? 0x3000).

(** The line boundaries of [str.splitlines] (CPython's
    [_PyUnicode_IsLinebreak]). *)
Definition is_linebreak (c : N) : bool :=
  ((0x0A <=? c) && (c <=? 0x0D)) || ((0x1C <=? c) && (c <=? 0x1E))
  || (c =? 0x85) || (c =? 0x2028) || (c =? 0x2029).

Fixpoint lstrip (s : pystr) : pystr :=
  match s with
  | [] => []
  | c :: rest => if is_whitespace c then lstrip rest else s
  end.

Definition rstrip (s : pystr) : pystr := rev (lstrip (rev s)).

(** [s.strip()] *)
Definition strip (s : pystr) : pystr := rstrip (lstrip s).

(** [s.splitlines()]: [cur] is the line being read, last character first.
    A carriage return directly followed by a line feed is one boundary; the
    text after the last boundary is a line only when it is not empty. *)
Fixpoint splitlines_from (cur s : pystr) : list pystr :=
  match s with
  | [] => match cur with [] => [] | _ :: _ => [rev cur] end
  | c :: rest =>
      if is_linebreak c then
        rev cur ::
        match rest with
        | c2 :: rest2 =>
            if (c =? 0x0D) && (c2 =? 0x0A) then splitlines_from [] rest2
            else splitlines_from [] rest
        | [] => splitlines_from [] rest
        end
      else splitlines_from (c :: cur) rest
  end.

Definition splitlines (s : pystr) : list pystr := splitlines_from [] s.

(** [s.startswith(prefix)] *)
Fixpoint startswith (s prefix : pystr) : bool :=
  match prefix, s with
  | [], _ => true
  | p :: prefix', c :: s' => (p =? c) && startswith s' prefix'
  | _ :: _, [] => false
  end.

(** [sub in s] on strings: [sub] occurs in [s] as a contiguous run. *)
Fixpoint str_contains (s sub : pystr) : bool :=
  startswith s sub ||
  match s with
  | [] => false
  | _ :: s' => str_contains s' sub
  end.

(** [x in xs] on a list of strings: some element equals [x]. *)
Definition list_contains (xs : list pystr) (x : pystr) : bool :=
  bool_decide (x ∈ xs).

(** [any(p(x) for x in xs)] *)
Definition any {A} (p : A → bool) (xs : list A) : bool := existsb p xs.

End PyStr.

Import PyStr.

(** ** The application script, [scripts/apply_job.py] *)

Module ApplyJob.

(** *** The environment

    Every call that leaves the script is made at one place of the source, and
    all but the keystrokes of [simulate_typing] at most once in a run; a
    [site] names the place.  The environment says, per site, whether the call
    raises and, for the calls that read text, what they return. *)

Inductive site : Type :=
  | s_install                 (* ChromeDriverManager().install(), Service(..) *)
  | s_chrome                  (* webdriver.Chrome(service=.., options=..) *)
  | s_get_login               (* driver.get(".../dashboard/login") *)
  | s_wait_email | s_clear_email | s_type_email (i : nat)
  | s_wait_continue | s_click_continue
  | s_wait_password | s_clear_password | s_type_password (i : nat)
  | s_wait_signin | s_click_signin
  | s_current_url_1 | s_current_url_2     (* the two reads of line 74 *)
  | s_screenshot
  | s_get_job | s_scroll_page
  | s_find_section | s_section_text
  | s_wait_apply_btn | s_scroll_apply | s_click_apply | s_wait_url_apply
  | s_wait_next | s_click_next
  | s_wait_url_submit
  | s_wait_submit_btn | s_scroll_submit | s_click_submit
  | s_quit.

Record world : Type := World {
  raises : site → option pystr;   (* [Some msg]: an [Exception] with text [msg] *)
  returned : site → pystr         (* the text a reading call returns *)
}.

Inductive locator : Type :=
  | By_CSS_SELECTOR (sel : pystr)
  | By_XPATH (xpath : pystr)
  | By_ID (id : pystr).

Inductive condition : Type :=
  | visibility_of_element_located (loc : locator)
  | element_to_be_clickable (loc : locator)
  | url_contains (fragment : pystr).

(** What a call asks for. *)
Inductive action : Type :=
  | Install
  | Chrome (arguments : list pystr)
  | Get (url : pystr)
  | WaitUntil (timeout : N) (cond : condition)
  | Clear
  | SendKeys (char : N)
  | Click
  | ExecuteScript (script : pystr)
  | CurrentUrl
  | SaveScreenshot (file : pystr)
  | FindElement (loc : locator)
  | Text
  | Quit.

(** What a run does, in order.  Pauses are in milliseconds. *)
Inductive event : Type :=
  | Print (line : pystr)
  | Sleep (min_ms max_ms : N)
  | Did (k : site) (a : action).

Inductive exn : Type :=
  | PyException (msg : pystr)     (* an instance of [Exception]; [msg] is [str(e)] *)
  | SystemExit (code : Z).        (* raised by [sys.exit]; not an [Exception] *)

Inductive result (A : Type) : Type :=
  | Ok (a : A)
  | Raise (e : exn).
Arguments Ok {A} a.
Arguments Raise {A} e.

(** The browser session object. *)
Inductive WebDriver : Type := ChromeSession.

(** The state of a run: what it has done so far, and the local variable
    [driver] of [main]. *)
Record state : Type := State {
  events : list event;
  driver_var : option WebDriver
}.

Definition start : state := State [] None.

Definition M (A : Type) : Type := world → state → state * result A.

#[global] Instance M_ret : MRet M := λ A a _ s, (s, Ok a).

#[global] Instance M_bind : MBind M := λ A B f m w s,
  match m w s with
  | (s', Ok a) => f a w s'
  | (s', Raise e) => (s', Raise e)
  end.

Definition emit (e : event) : M unit :=
  λ _ s, (State (events s ++ [e]) (driver_var s), Ok ()).

Definition raise {A} (e : exn) : M A := λ _ s, (s, Raise e).

(** Whether the call at site [k] raises. *)
Definition outcome (k : site) : M unit :=
  λ w s, match raises w k with
         | Some msg => (s, Raise (PyException msg))
         | None => (s, Ok ())
         end.

(** The call at site [k]: it is recorded, then raises if the environment
    says so. *)
Definition call (k : site) (a : action) : M unit :=
  emit (Did k a);; outcome k.

Definition answer (k : site) : M pystr := λ w s, (s, Ok (returned w k)).

(** A call that returns text. *)
Definition read (k : site) (a : action) : M pystr :=
  call k a;; answer k.

Definition print (line : pystr) : M unit := emit (Print line).

Definition sys_exit {A} (code : Z) : M A := raise (SystemExit code).

Definition get_driver : M (option WebDriver) := λ _ s, (s, Ok (driver_var s)).

Definition set_driver (d : option WebDriver) : M unit :=
  λ _ s, (State (events s) d, Ok ()).

(** [try: body / except Exception as e: handler]: [SystemExit] passes. *)
Definition try_except {A} (body : M A) (handler : pystr → M A) : M A :=
  λ w s, match body w s with
         | (s', Raise (PyException msg)) => handler msg w s'
         | r => r
         end.

(** [try: body / except: handler]: a bare [except] catches everything. *)
Definition try_except_all {A} (body : M A) (handler : M A) : M A :=
  λ w s, match body w s with
         | (s', Raise _) => handler w s'
         | r => r
         end.

(** [try: body / finally: final]: [final] always runs; what [body] returned
    or raised stands unless [final] raises itself. *)
Definition try_finally {A} (body : M A) (final : M unit) : M A :=
  λ w s, match body w s with
         | (s', r) =>
             match final w s' with
             | (s'', Ok _) => (s'', r)
             | (s'', Raise e) => (s'', Raise e)
             end
         end.

(** *** Driver calls *)

Definition wait_until (k : site) (timeout : N) (cond : condition) : M unit :=
  call k (WaitUntil timeout cond).
Definition driver_get (k : site) (url : pystr) : M unit := call k (Get url).
Definition execute_script (k : site) (script : pystr) : M unit :=
  call k (ExecuteScript script).
Definition click (k : site) : M unit := call k Click.
Definition clear (k : site) : M unit := call k Clear.
Definition send_keys (k : site) (char : N) : M unit := call k (SendKeys char).
Definition current_url (k : site) : M pystr := read k CurrentUrl.
Definition save_screenshot (k : site) (file : pystr) : M unit :=
  call k (SaveScreenshot file).

(** [driver.quit()].  Chrome's [quit] swallows the errors of the underlying
    command ([try: super().quit() / except Exception: pass]), so it returns. *)
Definition driver_quit : M unit := emit (Did s_quit Quit).

(** [time.sleep(random.uniform(min, max))] *)
Definition sleep_uniform (min_ms max_ms : N) : M unit := emit (Sleep min_ms max_ms).

(** *** The functions of the script *)

Fixpoint simulate_typing_from (k : nat → site) (i : nat) (text : pystr) : M unit :=
  match text with
  | [] => mret ()
  | char :: rest =>
      send_keys (k i) char;;
      sleep_uniform 50 150;;
      simulate_typing_from k (S i) rest
  end.

Definition simulate_typing (k : nat → site) (text : pystr) : M unit :=
  simulate_typing_from k 0 text.

Definition human_pause (min_sec max_sec : N) : M unit :=
  sleep_uniform (1000 * min_sec) (1000 * max_sec).

Definition chrome_arguments : list pystr :=
  [py "--headless=new"; py "--no-sandbox"; py "--disable-dev-shm-usage";
   py "--disable-blink-features=AutomationControlled"; py "--disable-gpu";
   py "--window-size=1920,1080"].

Definition init_driver : M WebDriver :=
  call s_install Install;;
  call s_chrome (Chrome chrome_arguments);;
  print (py "[Driver] " ++ [0x1F5A5; 0xFE0F] ++ py "  Chrome initialized");;
  mret ChromeSession.

Definition login (driver : WebDriver) (email password : pystr) : M bool :=
  print (py "[Login] " ++ [0x1F510] ++ py " Logging in as " ++ email ++ py "...");;
  driver_get s_get_login (py "https://www.dice.com/dashboard/login");;
  try_except
    (wait_until s_wait_email 15
       (visibility_of_element_located (By_CSS_SELECTOR (py "input[type='email']")));;
     clear s_clear_email;;
     simulate_typing s_type_email email;;
     human_pause 1 2;;
     wait_until s_wait_continue 15
       (element_to_be_clickable (By_XPATH (py "//button[contains(., 'Continue')]")));;
     execute_script s_click_continue (py "arguments[0].click();");;
     human_pause 2 3;;
     wait_until s_wait_password 15
       (visibility_of_element_located (By_CSS_SELECTOR (py "input[type='password']")));;
     clear s_clear_password;;
     simulate_typing s_type_password password;;
     human_pause 1 2;;
     wait_until s_wait_signin 15
       (element_to_be_clickable (By_XPATH (py "//button[contains(., 'Sign In')]")));;
     execute_script s_click_signin (py "arguments[0].click();");;
     human_pause 5 7;;
     url1 ← current_url s_current_url_1;
     authenticated ←
       (if str_contains url1 (py "dashboard") then mret true
        else url2 ← current_url s_current_url_2;
             mret (str_contains url2 (py "jobs")));
     if authenticated : bool then
       print (py "[Login] " ++ [0x2705] ++ py " Success");;
       mret true
     else
       print (py "[Login] " ++ [0x274C] ++ py " Failed");;
       save_screenshot s_screenshot (py "login_error.png");;
       mret false)
    (λ e,
       print (py "[Login] " ++ [0x274C] ++ py " Error: " ++ e);;
       mret false).

Section Eligibility.

(** [str.lower]: the Unicode case mapping of the Python runtime. *)
Variable str_lower : pystr → pystr.

Definition get_overview_text (driver : WebDriver) : M pystr :=
  try_except_all
    (call s_find_section (FindElement (By_XPATH (py "//section[@aria-label='Job Details']")));;
     text ← read s_section_text Text;
     mret (str_lower (strip text)))
    (mret []).

Definition has_c2c (overview_lines : list pystr) : bool :=
  any (λ line, str_contains line (py "corp to corp")) overview_lines.

Definition valid_terms : list pystr :=
  [py "contract - 3"; py "contract - 6"; py "contract - 9"; py "contract - 12";
   py "contract - independent"].

Definition has_valid_term (overview_lines : list pystr) : bool :=
  any (λ term, list_contains overview_lines term) valid_terms.

Definition strict_skip : list pystr :=
  [py "w2"; py "contract - w2"; py "full time"; py "full-time"].

Definition is_w2_only (overview_lines : list pystr) : bool :=
  any (λ skip, list_contains overview_lines skip) strict_skip.

(** The lines the verdict is computed from. *)
Definition normalized_lines (overview : pystr) : list pystr :=
  map strip (splitlines overview).

Definition check_eligibility (driver : WebDriver) : M bool :=
  overview ← get_overview_text driver;
  let overview_lines := normalized_lines overview in
  if is_w2_only overview_lines
     && negb (has_c2c overview_lines || has_valid_term overview_lines)
  then
    print (py "[Eligibility] " ++ [0x274C] ++ py " W2/FT only");;
    mret false
  else
    print (py "[Eligibility] " ++ [0x2705] ++ py " Eligible");;
    mret true.

Definition apply_easy (driver : WebDriver) : M bool :=
  try_except
    (wait_until s_wait_apply_btn 10 (element_to_be_clickable (By_ID (py "applyButton")));;
     execute_script s_scroll_apply (py "arguments[0].scrollIntoView({block: 'center'});");;
     human_pause 1 2;;
     click s_click_apply;;
     wait_until s_wait_url_apply 10 (url_contains (py "/apply"));;
     human_pause 2 3;;
     try_except_all
       (wait_until s_wait_next 8
          (element_to_be_clickable (By_XPATH (py "//button[contains(., 'Next')]")));;
        click s_click_next;;
        human_pause 2 3)
       (mret ());;
     wait_until s_wait_url_submit 10 (url_contains (py "/apply/submit"));;
     human_pause 2 3;;
     wait_until s_wait_submit_btn 10
       (element_to_be_clickable (By_XPATH (py "//button[contains(., 'Submit')]")));;
     execute_script s_scroll_submit (py "arguments[0].scrollIntoView({block: 'center'});");;
     human_pause 1 2;;
     click s_click_submit;;
     human_pause 2 3;;
     print (py "[Apply] " ++ [0x2705] ++ py " Success");;
     mret true)
    (λ e,
       print (py "[Apply] " ++ [0x274C] ++ py " Failed: " ++ e);;
       mret false).

(** [sys.argv[i]] *)
Definition argv_at (argv : list pystr) (i : nat) : M pystr :=
  match argv !! i with
  | Some a => mret a
  | None => raise (PyException (py "list index out of range"))
  end.

Definition rule : pystr := repeat 61 70.   (* '=' * 70 *)

Definition main (argv : list pystr) : M unit :=
  if (length argv <? 4)%nat then
    print (py "Usage: python apply_job.py <job_url> <job_title> <email> <password>");;
    sys_exit 1
  else
    job_url ← argv_at argv 1;
    job_title ← argv_at argv 2;
    email ← argv_at argv 3;
    password ← argv_at argv 4;
    print ([10] ++ rule);;
    print (py "[Start] " ++ [0x1F680] ++ py " Applying to: " ++ job_title);;
    print (rule ++ [10]);;
    set_driver None;;
    try_finally
      (try_except
         (driver ← init_driver;
          set_driver (Some driver);;
          logged_in ← login driver email password;
          if negb logged_in then
            print (py "FAILED: Login failed");;
            sys_exit 1
          else
            print (py "[Job] " ++ [0x1F4DD] ++ py " Opening job...");;
            driver_get s_get_job job_url;;
            human_pause 3 5;;
            execute_script s_scroll_page (py "window.scrollBy(0, 400)");;
            human_pause 2 3;;
            eligible ← check_eligibility driver;
            if negb eligible then
              print (py "SKIPPED: Not eligible");;
              sys_exit 2
            else
              applied ← apply_easy driver;
              if applied : bool then
                print ([10] ++ py "SUCCESS: Applied");;
                sys_exit 0
              else
                print ([10] ++ py "FAILED: Could not apply");;
                sys_exit 1)
         (λ e,
            print ([10] ++ py "FAILED: " ++ e);;
            sys_exit 1))
      (d ← get_driver;
       match d with
       | Some _ => driver_quit
       | None => mret ()
       end).

(** How the interpreter ends the process: the code of [sys.exit], 1 after
    the traceback of an uncaught exception, 0 when [main] returns. *)
Definition exit_status (r : result unit) : Z :=
  match r with
  | Ok _ => 0
  | Raise (SystemExit code) => code
  | Raise (PyException _) => 1
  end.

End Eligibility.

End ApplyJob.

(** ** The discovery script, [scripts/scrape_dice.py]: queueing *)

Module ScrapeDice.

(** A scraped job, the dict built at line 54. *)
Record job : Type := Job {
  job_url : pystr;
  job_title : pystr;
  keyword : pystr;
  discovered_at : pystr;
  status : pystr
}.

(** A Python [dict] with string keys: the items in insertion order.
    Assigning to a key that is present replaces the value where it stands. *)
Fixpoint dict_set {V} (d : list (pystr * V)) (k : pystr) (v : V) : list (pystr * V) :=
  match d with
  | [] => [(k, v)]
  | (k', v') :: rest =>
      if decide (k' = k) then (k', v) :: rest else (k', v') :: dict_set rest k v
  end.

Definition dict_values {V} (d : list (pystr * V)) : list V := snd <$> d.

(** [{job['job_url']: job for job in all_jobs}.values()] *)
Definition unique_jobs (all_jobs : list job) : list job :=
  dict_values (foldl (λ d job, dict_set d (job_url job) job) [] all_jobs).

(** A record of the worksheet as [get_all_records] gives it: column name to
    cell text. *)
Abbreviation record := (gmap pystr pystr).

(** The JOB_QUEUE worksheet: the records read from it, and the rows this run
    has appended.  Calls to the spreadsheet service are taken to succeed, and
    console messages are left out. *)
Record worksheet : Type := Worksheet {
  get_all_records : list record;
  appended : list (list pystr)
}.

Definition append_row (row : list pystr) (sheet : worksheet) : worksheet :=
  Worksheet (get_all_records sheet) (appended sheet ++ [row]).

(** [{row['job_url'] for row in existing_data if 'job_url' in row}] *)
Definition existing_urls (existing_data : list record) : gset pystr :=
  list_to_set (omap (λ row : record, row !! py "job_url") existing_data).

Definition queue_row (j : job) : list pystr :=
  [job_url j; job_title j; keyword j; discovered_at j; status j].

Definition save_to_job_queue (jobs : list job) (sheet : worksheet) : worksheet :=
  match jobs with
  | [] => sheet
  | _ :: _ =>
      let existing_data := get_all_records sheet in
      let urls := existing_urls existing_data in
      let new_jobs := filter (λ j, job_url j ∉ urls) jobs in
      match new_jobs with
      | [] => sheet
      | _ :: _ => foldl (λ sh j, append_row (queue_row j) sh) sheet new_jobs
      end
  end.

(** [main], with what the scrapes of the filters returned as its input. *)
Definition main (scraped : list (list job)) (sheet : worksheet) : worksheet :=
  let all_jobs := foldl (λ all_jobs jobs, all_jobs ++ jobs) [] scraped in
  save_to_job_queue (unique_jobs all_jobs) sheet.

(** A queue that holds url A, and scraped jobs with urls A and B. *)
Definition job_A : job := Job (py "A") (py "t1") (py "k") (py "d") (py "Pending").
Definition job_B : job := Job (py "B") (py "t2") (py "k") (py "d") (py "Pending").
Definition queue_A : worksheet := Worksheet [ {[ py "job_url" := py "A" ]} ] [].

End ScrapeDice.

(** ** Reading a run *)

Module Runs.

Import ApplyJob.

(** The state [s] after the events [t]. *)
Definition add_events (s : state) (t : list event) : state :=
  State (events s ++ t) (driver_var s).

(** What a computation does and gives when started afresh. *)
Definition trace_of {A} (m : M A) (w : world) : list event := events (m w start).1.
Definition result_of {A} (m : M A) (w : world) : result A := (m w start).2.

Definition is_quit (e : event) : bool :=
  match e with
  | Did _ Quit => true
  | _ => false
  end.

(** How many times the session was released. *)
Definition count_quit (t : list event) : nat := length (filter (λ e, is_quit e = true) t).

Definition is_screenshot (e : event) : bool :=
  match e with
  | Did _ (SaveScreenshot _) => true
  | _ => false
  end.

(** The lines printed, in order. *)
Definition printed (t : list event) : list pystr :=
  omap (λ e, match e with Print line => Some line | _ => None end) t.

Definition no_exit {A} (r : result A) : Prop := ∀ code, r ≠ Raise (SystemExit code).

(** A computation that only appends events, whatever the state it starts
    from, never releases the session and never calls [sys.exit]. *)
Definition tidy {A} (m : M A) : Prop :=
  ∀ w, ∃ t r, (∀ s, m w s = (add_events s t, r)) ∧ count_quit t = 0%nat ∧ no_exit r.

Section Flat.

Variable str_lower : pystr → pystr.
Variables job_url job_title email password : pystr.
Variable w : world.

(** The [try] block of [main], stage by stage: what it does, the value of
    [driver] when it is left, and the exception that leaves it (the block
    ends in [sys.exit] on every path). *)
Definition try_block : list event * option WebDriver * exn :=
  let d := ChromeSession in
  let tI := trace_of init_driver w in
  let tL := trace_of (login d email password) w in
  let tE := trace_of (check_eligibility str_lower d) w in
  let tA := trace_of (apply_easy d) w in
  let open1 := [Print (py "[Job] " ++ [0x1F4DD] ++ py " Opening job...");
                Did s_get_job (Get job_url)] in
  let open2 := [Sleep 3000 5000;
                Did s_scroll_page (ExecuteScript (py "window.scrollBy(0, 400)"))] in
  match result_of init_driver w with
  | Raise e => (tI, None, e)
  | Ok _ =>
    match result_of (login d email password) w with
    | Raise e => (tI ++ tL, Some d, e)
    | Ok false =>
        (tI ++ tL ++ [Print (py "FAILED: Login failed")], Some d, SystemExit 1)
    | Ok true =>
      match raises w s_get_job with
      | Some msg => (tI ++ tL ++ open1, Some d, PyException msg)
      | None =>
        match raises w s_scroll_page with
        | Some msg => (tI ++ tL ++ open1 ++ open2, Some d, PyException msg)
        | None =>
          let t := tI ++ tL ++ open1 ++ open2 ++ [Sleep 2000 3000] ++ tE in
          match result_of (check_eligibility str_lower d) w with
          | Raise e => (t, Some d, e)
          | Ok false => (t ++ [Print (py "SKIPPED: Not eligible")], Some d, SystemExit 2)
          | Ok true =>
            match result_of (apply_easy d) w with
            | Raise e => (t ++ tA, Some d, e)
            | Ok true =>
                (t ++ tA ++ [Print ([10] ++ py "SUCCESS: Applied")], Some d, SystemExit 0)
            | Ok false =>
                (t ++ tA ++ [Print ([10] ++ py "FAILED: Could not apply")], Some d,
                 SystemExit 1)
            end
          end
        end
      end
    end
  end.

Definition banner : list event :=
  [Print ([10] ++ rule);
   Print (py "[Start] " ++ [0x1F680] ++ py " Applying to: " ++ job_title);
   Print (rule ++ [10])].

(** [main] on five arguments or more, flattened: the banner, the [try]
    block, the [except Exception] clause when the block raised one, and the
    [finally] clause. *)
Definition main_flat : state * result unit :=
  let '(t, d, e) := try_block in
  let handled := match e with
                 | PyException msg => [Print ([10] ++ py "FAILED: " ++ msg)]
                 | SystemExit _ => []
                 end in
  let released := match d with Some _ => [Did s_quit Quit] | None => [] end in
  (State (banner ++ t ++ handled ++ released) d,
   Raise (SystemExit match e with PyException _ => 1 | SystemExit code => code end)).

End Flat.

(** The last line printed: the summary line of a finished run. *)
Definition summary_line (s : state) : option pystr := last (printed (events s)).

(** The apply flow opens when none of its four calls raises, and fails to
    open when one of them does. *)
Definition opens (w : world) : Prop :=
  raises w s_wait_apply_btn = None ∧ raises w s_scroll_apply = None
  ∧ raises w s_click_apply = None ∧ raises w s_wait_url_apply = None.

Definition open_fails (w : world) : Prop :=
  is_Some (raises w s_wait_apply_btn) ∨ is_Some (raises w s_scroll_apply)
  ∨ is_Some (raises w s_click_apply) ∨ is_Some (raises w s_wait_url_apply).

(** How far a run gets.  [logged_in b]: the session starts and [login]
    returns [b].  [screened b]: moreover login succeeded, the job page loads,
    and [check_eligibility] returns [b].  [applied b]: moreover the posting
    is eligible and [apply_easy] returns [b]. *)
Definition logged_in (email password : pystr) (w : world) (b : bool) : Prop :=
  result_of init_driver w = Ok ChromeSession
  ∧ result_of (login ChromeSession email password) w = Ok b.

Definition screened (str_lower : pystr → pystr) (email password : pystr)
    (w : world) (b : bool) : Prop :=
  logged_in email password w true
  ∧ raises w s_get_job = None ∧ raises w s_scroll_page = None
  ∧ result_of (check_eligibility str_lower ChromeSession) w = Ok b.

Definition applied (str_lower : pystr → pystr) (email password : pystr)
    (w : world) (b : bool) : Prop :=
  screened str_lower email password w true
  ∧ result_of (apply_easy ChromeSession) w = Ok b.

(** *** Sample environments *)

#[global] Instance site_eq_dec : EqDecision site.
Proof. solve_decision. Defined.

(** [str(e)] of the [TimeoutException] a [WebDriverWait] raises. *)
Definition timeout_message : pystr := py "Message: " ++ [10].

(** Nothing raises; login lands on the dashboard; the posting is C2C. *)
Definition all_well : world :=
  World (λ _, None)
        (λ k, match k with
              | s_current_url_1 => py "https://www.dice.com/dashboard"
              | s_section_text => py "Contract - Corp To Corp"
              | _ => []
              end).

(** [w], but the call at [k] raises. *)
Definition failing (k : site) (msg : pystr) (w : world) : world :=
  World (λ k', if decide (k' = k) then Some msg else raises w k') (returned w).

(** [w], but the read at [k] returns [text]. *)
Definition showing (k : site) (text : pystr) (w : world) : world :=
  World (raises w) (λ k', if decide (k' = k) then text else returned w k').

(** The posting says "Full-Time" and nothing else. *)
Definition full_time_only : world := showing s_section_text (py "Full-Time") all_well.

(** Two postings with the same lines, in another order and with a repeat. *)
Definition two_lines : world :=
  showing s_section_text (py "full-time" ++ [10] ++ py "remote") all_well.
Definition three_lines : world :=
  showing s_section_text
    (py "remote" ++ [10] ++ py "full-time" ++ [10] ++ py "remote") all_well.

(** The Job Details region is missing. *)
Definition no_region : world :=
  failing s_find_section (py "no such element") all_well.

Definition sample_argv : list pystr :=
  [py "apply_job.py"; py "https://www.dice.com/job-detail/1"; py "Engineer";
   py "me@example.com"; py "secret"].

(** [str.lower] on text whose cased letters are ASCII. *)
Definition ascii_lower (s : pystr) : pystr :=
  map (λ c, if (65 <=? c) && (c <=? 90) then c + 32 else c) s.

(** One list of lines is another with lines reordered or repeated: a
    permutation, a further copy of a line put in anywhere, or several such
    steps. *)
Inductive rearranged : list pystr → list pystr → Prop :=
  | rearranged_perm l1 l2 : l1 ≡ₚ l2 → rearranged l1 l2
  | rearranged_dup l1 l2 x : x ∈ l1 ++ l2 → rearranged (l1 ++ l2) (l1 ++ x :: l2)
  | rearranged_trans l1 l2 l3 : rearranged l1 l2 → rearranged l2 l3 → rearranged l1 l3.

End Runs.

(** ** The discovery script, [scripts/scrape_dice.py]: scraping *)

Module Scraper.

Import ScrapeDice.

(** A job card link of a results page, as the script reads it:
    [link.get('href')], and [get_text(strip=True)] of its job-title span
    when it has one. *)
Record link : Type := Link {
  href : option pystr;
  job_title_text : option pystr
}.

(** What one turn of the loop over the pages meets: the job card links it
    gets through, and the exception that ends the turn early, if any (a
    failed request gets through no link). *)
Record response : Type := Response {
  job_links : list link;
  raised : option pystr
}.

(** The job board during one call of [scrape_dice_jobs]: the response per
    page number, and [datetime.now().isoformat()] per page and link. *)
Record board : Type := Board {
  fetch : nat → response;
  clock : nat → nat → pystr
}.

(** [str(n)] of a non-negative [int]. *)
Definition str_of_nat (n : nat) : pystr := py (NilZero.string_of_uint (Nat.to_uint n)).

(** The f-string of line 37; 34 is the double quote. *)
Definition search_url (keyword location posted_date : pystr) (page : nat) : pystr :=
  py "https://www.dice.com/jobs?q=" ++ [34] ++ keyword ++ [34]
  ++ py "&location=" ++ location
  ++ py "&filters.postedDate=" ++ posted_date
  ++ py "&filters.easyApply=true&page=" ++ str_of_nat page.

(** Truth value of a string: not empty. *)
Definition truthy (s : pystr) : bool :=
  match s with
  | [] => false
  | _ :: _ => true
  end.

Definition full_url (href : pystr) : pystr :=
  if negb (startswith href (py "http")) then py "https://www.dice.com" ++ href
  else href.

(** The body of the loop over the links of a page; [i] is the position of
    the link on the page. *)
Definition add_link (keyword : pystr) (now : nat → pystr) (i : nat) (l : link)
    (all_jobs : list job) : list job :=
  match href l with
  | Some h =>
      if truthy h && str_contains h (py "/job-detail/") then
        let title := match job_title_text l with
                     | Some text => text
                     | None => py "Unknown"
                     end in
        all_jobs ++ [Job (full_url h) title keyword (now i) (py "Pending")]
      else all_jobs
  | None => all_jobs
  end.

Fixpoint add_links (keyword : pystr) (now : nat → pystr) (i : nat)
    (job_links : list link) (all_jobs : list job) : list job :=
  match job_links with
  | [] => all_jobs
  | l :: rest => add_links keyword now (S i) rest (add_link keyword now i l all_jobs)
  end.

(** The body of the loop over the pages: the state is the requests made so
    far and [all_jobs].  An exception is caught, so the turn ends and the
    loop goes on with what was appended before. *)
Definition scrape_page (b : board) (keyword location posted_date : pystr)
    (st : list pystr * list job) (page : nat) : list pystr * list job :=
  let url := search_url keyword location posted_date page in
  (st.1 ++ [url], add_links keyword (clock b page) 0 (job_links (fetch b page)) st.2).

(** [scrape_dice_jobs]: the requests made, and the jobs returned. *)
Definition scrape_dice_jobs (b : board) (keyword location posted_date : pystr)
    (max_pages : nat) : list pystr * list job :=
  foldl (scrape_page b keyword location posted_date) ([], []) (seq 1 max_pages).

(** [row.get(key, default)] *)
Definition get_or (row : record) (key default : pystr) : pystr :=
  match row !! key with
  | Some v => v
  | None => default
  end.

(** The loop of [main] over the filter rows; [i] is the position of the row
    and [boards i] the job board as the scrape of that row finds it.  The
    result lists, per scrape, the requests made and the jobs returned. *)
Fixpoint scrape_filters (boards : nat → board) (i : nat) (filters : list record)
    : list (list pystr * list job) :=
  match filters with
  | [] => []
  | filter_row :: rest =>
      let keyword := get_or filter_row (py "Keyword") [] in
      let location := get_or filter_row (py "Location") (py "Remote") in
      let posted_date := get_or filter_row (py "PostedDate") (py "ONE") in
      if truthy keyword then
        scrape_dice_jobs (boards i) keyword location posted_date 5
        :: scrape_filters boards (S i) rest
      else scrape_filters boards (S i) rest
  end.

(** [main] from the filter rows that [read_job_filters] returned. *)
Definition main_of_filters (boards : nat → board) (filters : list record)
    (sheet : worksheet) : worksheet :=
  main (snd <$> scrape_filters boards 0 filters) sheet.

(** A filter row without keyword. *)
Definition blank_filter : record := {[ py "Keyword" := []; py "Location" := py "Remote" ]}.

(** A board whose second page fails. *)
Definition sample_board : board :=
  Board (λ page, match page with
                 | 1 => Response [Link (Some (py "/job-detail/abc")) (Some (py "Dev"));
                                  Link (Some (py "/jobs/other")) None;
                                  Link None None] None
                 | 2 => Response [] (Some (py "timed out"))
                 | 3 => Response [Link (Some (py "https://x.test/job-detail/d")) None]
                                 None
                 | _ => Response [] None
                 end%nat)
        (λ _ _, py "2024-01-01T00:00:00").

End Scraper.

(** ** The stages of the application script *)

Module Stages.

Import ApplyJob Runs.

Inductive stage : Type :=
  | Starting | LoggingIn | OpeningJob | Screening | Applying | Releasing.

(** The part of the script a call is made in: [init_driver], [login], the
    lines of [main] that open the job page, [check_eligibility],
    [apply_easy], and the [finally] clause. *)
Definition stage_of (k : site) : stage :=
  match k with
  | s_install | s_chrome => Starting
  | s_get_login | s_wait_email | s_clear_email | s_type_email _
  | s_wait_continue | s_click_continue
  | s_wait_password | s_clear_password | s_type_password _
  | s_wait_signin | s_click_signin
  | s_current_url_1 | s_current_url_2 | s_screenshot => LoggingIn
  | s_get_job | s_scroll_page => OpeningJob
  | s_find_section | s_section_text => Screening
  | s_wait_apply_btn | s_scroll_apply | s_click_apply | s_wait_url_apply
  | s_wait_next | s_click_next | s_wait_url_submit
  | s_wait_submit_btn | s_scroll_submit | s_click_submit => Applying
  | s_quit => Releasing
  end.

(** Every call recorded in [t] is made in a stage that satisfies [P]. *)
Definition calls_in (P : stage → Prop) (t : list event) : Prop :=
  ∀ k a, Did k a ∈ t → P (stage_of k).

(** A tidy computation whose calls all lie in stages that satisfy [P]. *)
Definition neat (P : stage → Prop) {A} (m : M A) : Prop :=
  tidy m ∧ ∀ w, calls_in P (trace_of m w).

(** The characters handed to [send_keys], in order. *)
Definition keys_sent (t : list event) : pystr :=
  omap (λ e, match e with Did _ (SendKeys char) => Some char | _ => None end) t.

(** Every keystroke of [text], typed at the sites [k 0], [k 1], ..., goes
    through. *)
Definition typed (w : world) (k : nat → site) (text : pystr) : Prop :=
  ∀ n, (n < length text)%nat → raises w (k n) = None.

(** The line [padded] is the line [line] with whitespace put before and
    after it. *)
Definition padded_from (line padded : pystr) : Prop :=
  ∃ before after,
    Forall (λ c, is_whitespace c = true) before
    ∧ Forall (λ c, is_whitespace c = true) after
    ∧ padded = before ++ line ++ after.

(** The usage line of [main]. *)
Definition usage : pystr :=
  py "Usage: python apply_job.py <job_url> <job_title> <email> <password>".

(** Sample postings: the same three lines, the middle one with spaces and a
    tab around it in the second. *)
Definition plain_posting : world :=
  showing s_section_text
    (py "remote" ++ [10] ++ py "full-time" ++ [10] ++ py "on site") all_well.
Definition padded_posting : world :=
  showing s_section_text
    (py "remote" ++ [10] ++ py "  full-time" ++ [9; 32] ++ [10] ++ py "on site")
    all_well.

(** The Job Details region is found, and reading its text raises. *)
Definition stale_region : world :=
  failing s_section_text (py "stale element reference") all_well.

End Stages.

(** * Properties *)

(** ** Strings *)

Module PyStrFacts.

Lemma startswith_spec (s p : pystr) :
  startswith s p = true ↔ ∃ b, s = p ++ b.
Proof.
  revert s; induction p as [|c p IH]; intros s.
  - destruct s; simpl; split; eauto.
  - destruct s as [|d s]; simpl.
    + split; [done | intros [b Hb]; discriminate].
    + rewrite andb_true_iff, IH, N.eqb_eq. split.
      * intros [-> [b ->]]. by exists b.
      * intros [b Hb]. injection Hb as -> ->. eauto.
Qed.

Lemma str_contains_spec (s sub : pystr) :
  str_contains s sub = true ↔ ∃ a b, s = a ++ sub ++ b.
Proof.
  induction s as [|c s IH]; cbn [str_contains].
  - rewrite orb_false_r, startswith_spec. split.
    + intros [b Hb]. by exists [], b.
    + intros (a & b & Hab). symmetry in Hab.
      apply app_eq_nil in Hab as [-> Hab]. exists b. by rewrite Hab.
  - rewrite orb_true_iff, startswith_spec, IH. split.
    + intros [[b Hb] | (a & b & ->)].
      * by exists [], b.
      * by exists (c :: a), b.
    + intros ([|d a] & b & Hab); simpl in Hab.
      * left. by exists b.
      * right. injection Hab as -> ->. by exists a, b.
Qed.

Lemma list_contains_spec (xs : list pystr) (x : pystr) :
  list_contains xs x = true ↔ x ∈ xs.
Proof. unfold list_contains. by rewrite bool_decide_eq_true. Qed.

Lemma any_spec {A} (p : A → bool) (xs : list A) :
  any p xs = true ↔ ∃ x, x ∈ xs ∧ p x = true.
Proof.
  unfold any. induction xs as [|y xs IH]; simpl.
  - split; [done | intros (x & Hx & _); by apply elem_of_nil in Hx].
  - rewrite orb_true_iff, IH. split.
    + intros [Hy | (x & Hx & Hp)].
      * exists y. split; [left | done].
      * exists x. split; [by right | done].
    + intros (x & Hx & Hp). apply elem_of_cons in Hx as [-> | Hx]; eauto.
Qed.

(** The empty string has no lines. *)
Lemma splitlines_empty : splitlines [] = [].
Proof. reflexivity. Qed.

(** Only the empty string has no lines. *)
Lemma splitlines_from_nil (cur s : pystr) :
  splitlines_from cur s = [] → cur = [] ∧ s = [].
Proof.
  revert cur; induction s as [|c s IH]; intros cur; simpl.
  - destruct cur; [done | discriminate].
  - destruct (is_linebreak c); [discriminate |].
    intros H. apply IH in H as [? _]. discriminate.
Qed.

End PyStrFacts.

(** ** Runs of the application script *)

Module RunFacts.

Import ApplyJob Runs.

Lemma add_events_nil s : add_events s [] = s.
Proof. destruct s. unfold add_events. simpl. by rewrite app_nil_r. Qed.

Lemma add_events_app s t1 t2 :
  add_events (add_events s t1) t2 = add_events s (t1 ++ t2).
Proof. unfold add_events. simpl. by rewrite app_assoc. Qed.

Lemma count_quit_app t1 t2 : count_quit (t1 ++ t2) = (count_quit t1 + count_quit t2)%nat.
Proof. unfold count_quit. by rewrite filter_app, length_app. Qed.

Lemma run_bind {A B} (m : M A) (f : A → M B) w s :
  (m ≫= f) w s =
  match m w s with
  | (s', Ok a) => f a w s'
  | (s', Raise e) => (s', Raise e)
  end.
Proof. reflexivity. Qed.

Lemma tidy_run {A} (m : M A) :
  tidy m → ∀ w s, m w s = (add_events s (trace_of m w), result_of m w).
Proof.
  intros Hm w s. destruct (Hm w) as (t & r & E & _ & _).
  unfold trace_of, result_of. by rewrite (E start), E.
Qed.

Lemma tidy_count_quit {A} (m : M A) : tidy m → ∀ w, count_quit (trace_of m w) = 0%nat.
Proof.
  intros Hm w. destruct (Hm w) as (t & r & E & Q & _).
  unfold trace_of. by rewrite (E start).
Qed.

Lemma tidy_no_exit {A} (m : M A) : tidy m → ∀ w, no_exit (result_of m w).
Proof.
  intros Hm w. destruct (Hm w) as (t & r & E & _ & X).
  unfold result_of. by rewrite (E start).
Qed.

Lemma tidy_ret {A} (a : A) : tidy (mret a).
Proof. intros w. exists [], (Ok a). split_and!; [intros s; by rewrite add_events_nil | done | done]. Qed.

Lemma tidy_emit e : is_quit e = false → tidy (emit e).
Proof.
  intros He w. exists [e], (Ok ()). split_and!; [done | | done].
  unfold count_quit. simpl. rewrite filter_cons_False; [done | by rewrite He].
Qed.

Lemma tidy_outcome k : tidy (outcome k).
Proof.
  intros w. unfold outcome. destruct (raises w k) as [msg|].
  - exists [], (Raise (PyException msg)). split_and!; [intros s; by rewrite add_events_nil | done | done].
  - exists [], (Ok ()). split_and!; [intros s; by rewrite add_events_nil | done | done].
Qed.

Lemma tidy_answer k : tidy (answer k).
Proof.
  intros w. exists [], (Ok (returned w k)).
  split_and!; [intros s; unfold answer; by rewrite add_events_nil | done | done].
Qed.

Lemma tidy_bind {A B} (m : M A) (f : A → M B) :
  tidy m → (∀ a, tidy (f a)) → tidy (m ≫= f).
Proof.
  intros Hm Hf w. destruct (Hm w) as (t1 & r1 & E1 & Q1 & X1).
  destruct r1 as [a|e].
  - destruct (Hf a w) as (t2 & r2 & E2 & Q2 & X2).
    exists (t1 ++ t2), r2. split_and!; [| by rewrite count_quit_app, Q1, Q2 | done].
    intros s. by rewrite run_bind, E1, E2, add_events_app.
  - exists t1, (Raise e). split_and!; [| done | intros code [= ->]; by apply (X1 code)].
    intros s. by rewrite run_bind, E1.
Qed.

Lemma tidy_try_except {A} (body : M A) (handler : pystr → M A) :
  tidy body → (∀ msg, tidy (handler msg)) → tidy (try_except body handler).
Proof.
  intros Hm Hh w. destruct (Hm w) as (t1 & r1 & E1 & Q1 & X1).
  destruct r1 as [a|[msg|code]].
  - exists t1, (Ok a). split_and!; [| done | done].
    intros s. unfold try_except. by rewrite E1.
  - destruct (Hh msg w) as (t2 & r2 & E2 & Q2 & X2).
    exists (t1 ++ t2), r2. split_and!; [| by rewrite count_quit_app, Q1, Q2 | done].
    intros s. unfold try_except. by rewrite E1, E2, add_events_app.
  - by destruct (X1 code).
Qed.

Lemma tidy_try_except_all {A} (body handler : M A) :
  tidy body → tidy handler → tidy (try_except_all body handler).
Proof.
  intros Hm Hh w. destruct (Hm w) as (t1 & r1 & E1 & Q1 & X1).
  destruct r1 as [a|e].
  - exists t1, (Ok a). split_and!; [| done | done].
    intros s. unfold try_except_all. by rewrite E1.
  - destruct (Hh w) as (t2 & r2 & E2 & Q2 & X2).
    exists (t1 ++ t2), r2. split_and!; [| by rewrite count_quit_app, Q1, Q2 | done].
    intros s. unfold try_except_all. by rewrite E1, E2, add_events_app.
Qed.

Lemma tidy_call k a : a ≠ Quit → tidy (call k a).
Proof.
  intros Ha. apply tidy_bind; [apply tidy_emit | intros; apply tidy_outcome].
  by destruct a.
Qed.

Lemma tidy_read k a : a ≠ Quit → tidy (read k a).
Proof. intros Ha. apply tidy_bind; [by apply tidy_call | intros; apply tidy_answer]. Qed.

Lemma tidy_print line : tidy (print line).
Proof. by apply tidy_emit. Qed.

Lemma tidy_human_pause a b : tidy (human_pause a b).
Proof. by apply tidy_emit. Qed.

Ltac tidy_step :=
  lazymatch goal with
  | |- tidy (mret _) => apply tidy_ret
  | |- tidy (print _) => apply tidy_print
  | |- tidy (human_pause _ _) => apply tidy_human_pause
  | |- tidy (emit _) => apply tidy_emit; reflexivity
  | |- tidy (call _ _) => apply tidy_call; discriminate
  | |- tidy (read _ _) => apply tidy_read; discriminate
  | |- tidy (try_except _ _) => apply tidy_try_except
  | |- tidy (try_except_all _ _) => apply tidy_try_except_all
  | |- tidy (if ?b then _ else _) => destruct b
  | |- tidy (_ ≫= _) => apply tidy_bind
  | |- ∀ _, _ => intro
  end.

Lemma tidy_simulate_typing k text : tidy (simulate_typing k text).
Proof.
  unfold simulate_typing. generalize 0%nat as i.
  induction text as [|char rest IH]; intros i; simpl.
  - apply tidy_ret.
  - unfold send_keys, sleep_uniform. repeat tidy_step. apply IH.
Qed.

Lemma tidy_init_driver : tidy init_driver.
Proof. unfold init_driver. repeat tidy_step. Qed.

Lemma tidy_login driver email password : tidy (login driver email password).
Proof.
  unfold login, driver_get, wait_until, clear, execute_script, current_url, save_screenshot.
  repeat first [apply tidy_simulate_typing | tidy_step].
Qed.

Section WithLower.

Variable str_lower : pystr → pystr.

Lemma tidy_get_overview_text driver : tidy (get_overview_text str_lower driver).
Proof. unfold get_overview_text. repeat tidy_step. Qed.

Lemma tidy_check_eligibility driver : tidy (check_eligibility str_lower driver).
Proof.
  unfold check_eligibility.
  repeat first [apply tidy_get_overview_text | tidy_step].
Qed.

End WithLower.

Lemma tidy_apply_easy driver : tidy (apply_easy driver).
Proof.
  unfold apply_easy, wait_until, execute_script, click.
  repeat tidy_step.
Qed.

End RunFacts.

(** ** The eligibility screen *)

Module EligibilityFacts.

Import ApplyJob Runs PyStrFacts RunFacts.

Lemma is_w2_only_spec (lines : list pystr) :
  is_w2_only lines = true ↔
  ∃ line, line ∈ lines ∧
    (line = py "w2" ∨ line = py "contract - w2" ∨ line = py "full time"
     ∨ line = py "full-time").
Proof.
  unfold is_w2_only, strict_skip. rewrite any_spec. split.
  - intros (x & Hx & Hin). apply list_contains_spec in Hin.
    exists x. split; [done |].
    repeat (apply elem_of_cons in Hx as [-> | Hx]; [tauto |]).
    by apply elem_of_nil in Hx.
  - intros (line & Hin & Hline). exists line.
    rewrite list_contains_spec. split; [| done].
    destruct Hline as [-> | [-> | [-> | ->]]]; set_solver.
Qed.

Lemma has_valid_term_spec (lines : list pystr) :
  has_valid_term lines = true ↔
  ∃ line, line ∈ lines ∧
    (line = py "contract - 3" ∨ line = py "contract - 6" ∨ line = py "contract - 9"
     ∨ line = py "contract - 12" ∨ line = py "contract - independent").
Proof.
  unfold has_valid_term, valid_terms. rewrite any_spec. split.
  - intros (x & Hx & Hin). apply list_contains_spec in Hin.
    exists x. split; [done |].
    repeat (apply elem_of_cons in Hx as [-> | Hx]; [tauto |]).
    by apply elem_of_nil in Hx.
  - intros (line & Hin & Hline). exists line.
    rewrite list_contains_spec. split; [| done].
    destruct Hline as [-> | [-> | [-> | [-> | ->]]]]; set_solver.
Qed.

Lemma has_c2c_spec (lines : list pystr) :
  has_c2c lines = true ↔
  ∃ line, line ∈ lines ∧ ∃ a b, line = a ++ py "corp to corp" ++ b.
Proof.
  unfold has_c2c. rewrite any_spec.
  split; intros (line & Hin & H); exists line; (split; [done |]);
    by apply str_contains_spec.
Qed.

Lemma rearranged_elem_of l1 l2 : rearranged l1 l2 → ∀ x, x ∈ l1 ↔ x ∈ l2.
Proof.
  induction 1 as [l1 l2 Hp | l1 l2 y Hy | l1 l2 l3 _ IH1 _ IH2]; intros x.
  - by rewrite Hp.
  - rewrite !elem_of_app, elem_of_cons. rewrite elem_of_app in Hy.
    split; [tauto |]. intros [? | [-> | ?]]; tauto.
  - by rewrite IH1.
Qed.

(** The three tests look at the set of lines only. *)
Lemma tests_by_membership (l1 l2 : list pystr) :
  (∀ x, x ∈ l1 ↔ x ∈ l2) →
  is_w2_only l1 = is_w2_only l2 ∧ has_c2c l1 = has_c2c l2
  ∧ has_valid_term l1 = has_valid_term l2.
Proof.
  intros H. split_and!; apply eq_true_iff_eq.
  - rewrite !is_w2_only_spec. by setoid_rewrite H.
  - rewrite !has_c2c_spec. by setoid_rewrite H.
  - rewrite !has_valid_term_spec. by setoid_rewrite H.
Qed.

Section WithLower.

Variable str_lower : pystr → pystr.

Lemma check_eligibility_result driver w s overview :
  (get_overview_text str_lower driver w s).2 = Ok overview →
  (check_eligibility str_lower driver w s).2 =
  Ok (negb (is_w2_only (normalized_lines overview)
            && negb (has_c2c (normalized_lines overview)
                     || has_valid_term (normalized_lines overview)))).
Proof.
  intros H. unfold check_eligibility. rewrite run_bind.
  destruct (get_overview_text str_lower driver w s) as [s' r]. simpl in H. subst r.
  cbv zeta.
  by destruct (is_w2_only _ && negb _).
Qed.

(** Both functions return on every page: the hypotheses below are met by
    every run. *)
Lemma get_overview_text_returns driver w s :
  ∃ overview, (get_overview_text str_lower driver w s).2 = Ok overview.
Proof.
  unfold get_overview_text, try_except_all, read, call, emit, outcome, answer,
    mbind, M_bind, mret, M_ret.
  destruct (raises w s_find_section); simpl; [by eexists |].
  destruct (raises w s_section_text); simpl; by eexists.
Qed.

Lemma check_eligibility_returns driver w s :
  ∃ eligible, (check_eligibility str_lower driver w s).2 = Ok eligible.
Proof.
  destruct (get_overview_text_returns driver w s) as [overview H].
  rewrite (check_eligibility_result _ _ _ _ H). by eexists.
Qed.

(** C1.  For every posting overview, [check_eligibility] returns [False]
    (not eligible: W2 or full time only) exactly when some normalized line
    equals one of "w2", "contract - w2", "full time", "full-time", no line
    contains "corp to corp", and no line equals one of "contract - 3",
    "contract - 6", "contract - 9", "contract - 12", "contract - independent";
    in every other case it returns [True] (eligible). *)
Theorem check_eligibility_verdict driver w s overview :
  (get_overview_text str_lower driver w s).2 = Ok overview →
  let lines := normalized_lines overview in
  let w2_only :=
    ∃ line, line ∈ lines ∧
      (line = py "w2" ∨ line = py "contract - w2" ∨ line = py "full time"
       ∨ line = py "full-time") in
  let c2c := ∃ line, line ∈ lines ∧ ∃ a b, line = a ++ py "corp to corp" ++ b in
  let valid_term :=
    ∃ line, line ∈ lines ∧
      (line = py "contract - 3" ∨ line = py "contract - 6" ∨ line = py "contract - 9"
       ∨ line = py "contract - 12" ∨ line = py "contract - independent") in
  ((check_eligibility str_lower driver w s).2 = Ok false
     ↔ w2_only ∧ ¬ c2c ∧ ¬ valid_term)
  ∧ ((check_eligibility str_lower driver w s).2 = Ok true
     ↔ ¬ (w2_only ∧ ¬ c2c ∧ ¬ valid_term)).
Proof.
  intros H lines w2_only c2c valid_term.
  rewrite (check_eligibility_result _ _ _ _ H). fold lines.
  assert (HP : is_w2_only lines && negb (has_c2c lines || has_valid_term lines) = true
               ↔ w2_only ∧ ¬ c2c ∧ ¬ valid_term).
  { rewrite andb_true_iff, negb_true_iff, orb_false_iff, <- !not_true_iff_false.
    by rewrite is_w2_only_spec, has_c2c_spec, has_valid_term_spec. }
  destruct (is_w2_only lines && negb (has_c2c lines || has_valid_term lines)); simpl.
  - split; split; [by intros _; apply HP | done | discriminate |].
    intros HnP. destruct HnP. by apply HP.
  - split; split; [discriminate | | | done].
    + intros HP'. apply HP in HP'. discriminate.
    + intros _ HP'. apply HP in HP'. discriminate.
Qed.

Lemma get_overview_text_absent driver w s :
  is_Some (raises w s_find_section) →
  (get_overview_text str_lower driver w s).2 = Ok [].
Proof.
  intros [msg H]. unfold get_overview_text, try_except_all, call.
  rewrite !run_bind. unfold emit, outcome. by rewrite H.
Qed.

(** C3.  An overview with no lines is eligible: when the Job Details region
    is absent [get_overview_text] returns the empty string, the empty string
    has no lines, and for every overview without lines [is_w2_only] is false
    and [check_eligibility] returns [True]. *)
Theorem no_lines_is_eligible driver w s :
  (is_Some (raises w s_find_section) →
   (get_overview_text str_lower driver w s).2 = Ok []
   ∧ (check_eligibility str_lower driver w s).2 = Ok true)
  ∧ normalized_lines [] = []
  ∧ (∀ overview,
       (get_overview_text str_lower driver w s).2 = Ok overview →
       normalized_lines overview = [] →
       is_w2_only (normalized_lines overview) = false
       ∧ (check_eligibility str_lower driver w s).2 = Ok true).
Proof.
  assert (∀ overview,
            (get_overview_text str_lower driver w s).2 = Ok overview →
            normalized_lines overview = [] →
            is_w2_only (normalized_lines overview) = false
            ∧ (check_eligibility str_lower driver w s).2 = Ok true) as Hall.
  { intros overview H Hnil.
    rewrite (check_eligibility_result _ _ _ _ H), Hnil. by split. }
  split_and!; [| done | done].
  intros Habs. pose proof (get_overview_text_absent driver w s Habs) as H.
  split; [done |]. by apply (Hall [] H).
Qed.

(** C10.  The verdict depends only on which normalized lines occur: two
    overviews whose lines differ by reordering or by repeating lines get the
    same verdict. *)
Theorem verdict_ignores_order_and_repeats driver w1 s1 w2 s2 overview1 overview2 :
  (get_overview_text str_lower driver w1 s1).2 = Ok overview1 →
  (get_overview_text str_lower driver w2 s2).2 = Ok overview2 →
  rearranged (normalized_lines overview1) (normalized_lines overview2) →
  (check_eligibility str_lower driver w1 s1).2
  = (check_eligibility str_lower driver w2 s2).2.
Proof.
  intros H1 H2 Hr.
  rewrite (check_eligibility_result _ _ _ _ H1), (check_eligibility_result _ _ _ _ H2).
  destruct (tests_by_membership _ _ (rearranged_elem_of _ _ Hr)) as (-> & -> & ->).
  done.
Qed.

End WithLower.

(** Only the empty overview has no lines. *)
Lemma normalized_lines_nil overview : normalized_lines overview = [] ↔ overview = [].
Proof.
  unfold normalized_lines, splitlines. split; [| by intros ->].
  intros H. apply map_eq_nil in H. by apply splitlines_from_nil in H as [_ ?].
Qed.

(** C2.  Valid-term detection is by equality of a whole line, C2C detection
    by containment: when no normalized line equals one of the five valid-term
    strings [has_valid_term] is false, whatever the lines contain; and as
    soon as "corp to corp" occurs anywhere inside some line [has_c2c] is
    true. *)
Theorem valid_term_exact_c2c_substring (overview : pystr) :
  let lines := normalized_lines overview in
  ((∀ line, line ∈ lines →
      line ≠ py "contract - 3" ∧ line ≠ py "contract - 6" ∧ line ≠ py "contract - 9"
      ∧ line ≠ py "contract - 12" ∧ line ≠ py "contract - independent") →
   has_valid_term lines = false)
  ∧ ((∃ line a b, line ∈ lines ∧ line = a ++ py "corp to corp" ++ b) →
     has_c2c lines = true).
Proof.
  intros lines. split.
  - intros H. apply not_true_iff_false. rewrite has_valid_term_spec.
    intros (line & Hin & Hline). specialize (H line Hin). tauto.
  - intros (line & a & b & Hin & Hline). apply has_c2c_spec. eauto.
Qed.

End EligibilityFacts.

(** ** The whole run *)

Module MainFacts.

Import ApplyJob Runs PyStrFacts RunFacts.

Ltac run_unfold :=
  repeat progress
    unfold mbind, M_bind, mret, M_ret, print, emit, set_driver, try_finally, try_except,
      try_except_all, get_driver, sys_exit, raise, driver_get, human_pause,
      execute_script, sleep_uniform, call, outcome, driver_quit, wait_until, click.

Ltac run_simpl :=
  cbn -[login check_eligibility apply_easy init_driver py rule N.mul trace_of result_of].

Ltac run_case :=
  match goal with
  | H : raises ?w ?k = _ |- context [raises ?w ?k] => rewrite H
  | |- context [match ?r with Ok _ => _ | Raise _ => _ end] =>
      is_var r; destruct r as [[]|[?|?]]
  | |- context [match raises ?w ?k with _ => _ end] => destruct (raises w k) eqn:?
  end.

Lemma init_driver_result w :
  result_of init_driver w = Ok ChromeSession
  ↔ raises w s_install = None ∧ raises w s_chrome = None.
Proof.
  unfold result_of, init_driver. run_unfold. run_simpl.
  destruct (raises w s_install); run_simpl;
    [split; [discriminate | intros [[=] _]] |].
  destruct (raises w s_chrome); run_simpl;
    [split; [discriminate | intros [_ [=]]] | done].
Qed.

(** When the first wait of [login] raises, [login] returns [False] and asks
    for no screenshot. *)
Lemma login_exception_no_screenshot driver email password w :
  raises w s_get_login = None →
  is_Some (raises w s_wait_email) →
  result_of (login driver email password) w = Ok false
  ∧ existsb is_screenshot (trace_of (login driver email password) w) = false.
Proof.
  intros Hget [msg Hwait]. unfold result_of, trace_of, login. run_unfold.
  run_simpl. rewrite Hget. run_simpl. by rewrite Hwait.
Qed.

Section WithLower.

Variable str_lower : pystr → pystr.

Lemma main_run script job_url job_title email password rest w :
  main str_lower (script :: job_url :: job_title :: email :: password :: rest) w start
  = main_flat str_lower job_url job_title email password w.
Proof.
  unfold main, main_flat, try_block, banner.
  pose proof (tidy_run _ tidy_init_driver w) as HI.
  pose proof (tidy_run _ (tidy_login ChromeSession email password) w) as HL.
  pose proof (tidy_run _ (tidy_check_eligibility str_lower ChromeSession) w) as HE.
  pose proof (tidy_run _ (tidy_apply_easy ChromeSession) w) as HA.
  set (rI := result_of init_driver w) in *. clearbody rI.
  set (rL := result_of (login ChromeSession email password) w) in *. clearbody rL.
  set (rE := result_of (check_eligibility str_lower ChromeSession) w) in *. clearbody rE.
  set (rA := result_of (apply_easy ChromeSession) w) in *. clearbody rA.
  run_unfold. run_simpl.
  repeat (first [rewrite HI | rewrite HL | rewrite HE | rewrite HA | run_case];
          unfold add_events; run_simpl).
  all: by rewrite <- ?app_assoc, ?app_nil_r.
Qed.

(** What the [try] block leaves behind: no release of the session in it,
    and [driver] is set exactly when [init_driver] returned. *)
Lemma try_block_spec job_url email password w :
  let '(t, d, e) := try_block str_lower job_url email password w in
  count_quit t = 0%nat
  ∧ (is_Some d ↔ result_of init_driver w = Ok ChromeSession).
Proof.
  unfold try_block.
  pose proof (tidy_count_quit _ tidy_init_driver w) as QI.
  pose proof (tidy_count_quit _ (tidy_login ChromeSession email password) w) as QL.
  pose proof (tidy_count_quit _ (tidy_check_eligibility str_lower ChromeSession) w) as QE.
  pose proof (tidy_count_quit _ (tidy_apply_easy ChromeSession) w) as QA.
  destruct (result_of init_driver w) as [[]|?]; [| split; [done | by split; [intros [] |]]].
  assert (∀ d : WebDriver, is_Some (Some d) ↔ Ok ChromeSession = Ok ChromeSession)
    as Hd by (intros; split; eauto).
  repeat match goal with
         | |- context [match ?r with _ => _ end] => destruct r as [[]|]
         | |- context [match raises ?w ?k with _ => _ end] => destruct (raises w k)
         end.
  all: split; [| apply Hd].
  all: rewrite ?count_quit_app, ?QI, ?QL, ?QE, ?QA; reflexivity.
Qed.


(** A run that reaches the apply flow: its events end with those of
    [apply_easy], the summary line and the release of the session. *)
Lemma main_after_apply script job_url job_title email password rest w :
  screened str_lower email password w true →
  let run := main str_lower (script :: job_url :: job_title :: email :: password :: rest)
                  w start in
  ∃ pre,
    (events run.1, run.2) =
    match result_of (apply_easy ChromeSession) w with
    | Ok true =>
        (pre ++ trace_of (apply_easy ChromeSession) w
           ++ [Print ([10] ++ py "SUCCESS: Applied"); Did s_quit Quit],
         Raise (SystemExit 0))
    | Ok false =>
        (pre ++ trace_of (apply_easy ChromeSession) w
           ++ [Print ([10] ++ py "FAILED: Could not apply"); Did s_quit Quit],
         Raise (SystemExit 1))
    | Raise (PyException msg) =>
        (pre ++ trace_of (apply_easy ChromeSession) w
           ++ [Print ([10] ++ py "FAILED: " ++ msg); Did s_quit Quit],
         Raise (SystemExit 1))
    | Raise (SystemExit code) =>
        (pre ++ trace_of (apply_easy ChromeSession) w ++ [Did s_quit Quit],
         Raise (SystemExit code))
    end.
Proof.
  intros ((HI & HL) & Hjob & Hscroll & HE) run. subst run.
  rewrite main_run. unfold main_flat, try_block.
  rewrite HI, HL, Hjob, Hscroll, HE.
  exists (banner job_title ++ trace_of init_driver w
          ++ trace_of (login ChromeSession email password) w
          ++ [Print (py "[Job] " ++ [0x1F4DD] ++ py " Opening job...");
              Did s_get_job (Get job_url)]
          ++ [Sleep 3000 5000;
              Did s_scroll_page (ExecuteScript (py "window.scrollBy(0, 400)"))]
          ++ [Sleep 2000 3000]
          ++ trace_of (check_eligibility str_lower ChromeSession) w).
  destruct (result_of (apply_easy ChromeSession) w) as [[]|[?|?]];
    cbn -[trace_of py rule banner]; by rewrite <- ?app_assoc.
Qed.

End WithLower.

(** *** The apply flow *)

Ltac find_event :=
  repeat first [apply list_elem_of_here | apply list_elem_of_further].

Lemma apply_easy_open_fails driver w :
  open_fails w → result_of (apply_easy driver) w = Ok false.
Proof.
  intros H. unfold result_of, apply_easy. run_unfold. run_simpl.
  destruct (raises w s_wait_apply_btn) eqn:E1; run_simpl; [done |].
  destruct (raises w s_scroll_apply) eqn:E2; run_simpl; [done |].
  destruct (raises w s_click_apply) eqn:E3; run_simpl; [done |].
  destruct (raises w s_wait_url_apply) eqn:E4; run_simpl; [done |].
  destruct H as [[? H] | [[? H] | [[? H] | [? H]]]]; congruence.
Qed.

Lemma apply_easy_opened driver w :
  opens w →
  Did s_wait_url_submit (WaitUntil 10 (url_contains (py "/apply/submit")))
    ∈ trace_of (apply_easy driver) w
  ∧ (raises w s_wait_url_submit = None →
     Did s_wait_submit_btn
       (WaitUntil 10 (element_to_be_clickable
                        (By_XPATH (py "//button[contains(., 'Submit')]"))))
       ∈ trace_of (apply_easy driver) w)
  ∧ (result_of (apply_easy driver) w = Ok true
     ∨ result_of (apply_easy driver) w = Ok false)
  ∧ (result_of (apply_easy driver) w = Ok true
     ↔ raises w s_wait_url_submit = None ∧ raises w s_wait_submit_btn = None
       ∧ raises w s_scroll_submit = None ∧ raises w s_click_submit = None).
Proof.
  intros (E1 & E2 & E3 & E4). unfold trace_of, result_of, apply_easy.
  run_unfold. run_simpl. rewrite E1. run_simpl. rewrite E2. run_simpl.
  rewrite E3. run_simpl. rewrite E4. run_simpl.
  repeat match goal with
         | |- context [match raises ?w ?k with _ => _ end] =>
             destruct (raises w k) eqn:?; run_simpl
         end.
  all: split_and!;
    [ find_event
    | first [discriminate | intros _; find_event]
    | eauto
    | split; [first [discriminate | done] | intros (? & ? & ? & ?); congruence] ].
Qed.

Lemma count_quit_banner job_title : count_quit (banner job_title) = 0%nat.
Proof. reflexivity. Qed.

Section Claims.

Variable str_lower : pystr → pystr.

(** C6.  Whatever the arguments and whatever the browser does, when [main]
    is left the session has been released ([driver.quit()]) once if it was
    acquired and not at all otherwise; it is acquired exactly when the script
    has its arguments and [init_driver] returns; and the release is the last
    thing the run does. *)
Theorem session_released_exactly_once argv w :
  let s := (main str_lower argv w start).1 in
  count_quit (events s) = match driver_var s with Some _ => 1%nat | None => 0%nat end
  ∧ (is_Some (driver_var s)
     ↔ (5 ≤ length argv)%nat ∧ raises w s_install = None ∧ raises w s_chrome = None)
  ∧ (is_Some (driver_var s) → last (events s) = Some (Did s_quit Quit)).
Proof.
  intros s. subst s.
  destruct argv as [|a0 [|job_url [|job_title [|email [|password rest]]]]].
  1-5: unfold main, argv_at; run_unfold; run_simpl;
    (split_and!;
     [ reflexivity
     | split; [intros [? [=]] | intros [? _]; simpl in *; lia]
     | intros [? [=]] ]).
  rewrite main_run. unfold main_flat.
  pose proof (try_block_spec str_lower job_url email password w) as H.
  destruct (try_block str_lower job_url email password w) as [[t d] e].
  destruct H as [Q Hd]. cbn -[banner py rule count_quit]. split_and!.
  - rewrite !count_quit_app, count_quit_banner, Q. by destruct e, d.
  - rewrite Hd, init_driver_result. simpl. split; [intros; split; [lia | done] | tauto].
  - intros [d' ->]. rewrite !app_assoc. apply last_snoc.
Qed.

Ltac stage_cases :=
  repeat match goal with
         | X : no_exit ?r |- context [match ?r with _ => _ end] =>
             let c := fresh "c" in
             destruct r as [[]|[?|c]]; [.. | by destruct (X c)]
         | |- context [match raises ?w ?k with _ => _ end] => destruct (raises w k)
         end.

(** C8.  With its positional arguments supplied, the script exits with
    status 0 exactly when the application was submitted ([apply_easy]
    returned [True]), with status 2 exactly when the job was skipped as
    ineligible ([check_eligibility] returned [False]), and with status 1 when
    login failed or the apply flow failed; no other status occurs. *)
Theorem exit_status_encodes_outcome script job_url job_title email password rest w :
  let status :=
    exit_status
      (main str_lower (script :: job_url :: job_title :: email :: password :: rest)
            w start).2 in
  (status = 0%Z ↔ applied str_lower email password w true)
  ∧ (status = 2%Z ↔ screened str_lower email password w false)
  ∧ (logged_in email password w false → status = 1%Z)
  ∧ (applied str_lower email password w false → status = 1%Z)
  ∧ (status = 0%Z ∨ status = 1%Z ∨ status = 2%Z).
Proof.
  intros status. subst status. rewrite main_run.
  unfold main_flat, try_block, applied, screened, logged_in.
  pose proof (tidy_no_exit _ tidy_init_driver w) as XI.
  pose proof (tidy_no_exit _ (tidy_login ChromeSession email password) w) as XL.
  pose proof (tidy_no_exit _ (tidy_check_eligibility str_lower ChromeSession) w) as XE.
  pose proof (tidy_no_exit _ (tidy_apply_easy ChromeSession) w) as XA.
  stage_cases; cbn -[trace_of py rule banner]; clear; intuition congruence.
Qed.

Lemma summary_line_end t line d :
  summary_line (State (t ++ [Print line; Did s_quit Quit]) d) = Some line.
Proof.
  unfold summary_line, printed. simpl. rewrite omap_app. simpl. apply last_snoc.
Qed.

Lemma main_login_failed script job_url job_title email password rest w :
  logged_in email password w false →
  let run := main str_lower (script :: job_url :: job_title :: email :: password :: rest)
                  w start in
  run.2 = Raise (SystemExit 1)
  ∧ summary_line run.1 = Some (py "FAILED: Login failed").
Proof.
  intros [HI HL] run. subst run. rewrite main_run. unfold main_flat, try_block.
  rewrite HI, HL. cbn -[trace_of py rule banner summary_line]. split; [done |].
  rewrite !app_assoc, <- app_assoc. apply summary_line_end.
Qed.

Lemma main_apply_failed script job_url job_title email password rest w :
  screened str_lower email password w true →
  result_of (apply_easy ChromeSession) w = Ok false →
  let run := main str_lower (script :: job_url :: job_title :: email :: password :: rest)
                  w start in
  run.2 = Raise (SystemExit 1)
  ∧ summary_line run.1 = Some ([10] ++ py "FAILED: Could not apply").
Proof.
  intros Hs HA run.
  destruct (main_after_apply str_lower script job_url job_title email password rest w Hs)
    as [pre Hrun].
  fold run in Hrun. rewrite HA in Hrun. injection Hrun as Hev Hr.
  split; [done |].
  destruct run.1 as [ev d]. simpl in Hev. subst ev.
  rewrite app_assoc. apply summary_line_end.
Qed.

(** C4, as the code has it.  A run that fails while opening the apply flow
    (one of the four calls up to the wait for "/apply" raises) ends as an
    apply failure: [apply_easy] returns [False], [main] leaves with
    [sys.exit(1)], the summary line is "FAILED: Could not apply" and the exit
    status is 1.  The stage is not part of the outcome: a run whose apply
    flow opens and then fails at the wait for "/apply/submit" or at the
    submit step (the wait for the Submit button, the scroll to it or the
    click on it raises) ends with the same return value of [apply_easy], the
    same result of [main], the same summary line and the same exit status.
    A run whose login fails ends with the same exit status 1 and another
    summary line, "FAILED: Login failed". *)
Theorem open_failure_is_apply_failure script job_url job_title email password rest w :
  let run :=
    main str_lower (script :: job_url :: job_title :: email :: password :: rest)
         w start in
  (screened str_lower email password w true →
   open_fails w →
   result_of (apply_easy ChromeSession) w = Ok false
   ∧ run.2 = Raise (SystemExit 1)
   ∧ exit_status run.2 = 1%Z
   ∧ summary_line run.1 = Some ([10] ++ py "FAILED: Could not apply")
   ∧ summary_line run.1 ≠ Some (py "FAILED: Login failed"))
  ∧ (screened str_lower email password w true →
     opens w →
     is_Some (raises w s_wait_url_submit) ∨ is_Some (raises w s_wait_submit_btn)
     ∨ is_Some (raises w s_scroll_submit) ∨ is_Some (raises w s_click_submit) →
     result_of (apply_easy ChromeSession) w = Ok false
     ∧ run.2 = Raise (SystemExit 1)
     ∧ exit_status run.2 = 1%Z
     ∧ summary_line run.1 = Some ([10] ++ py "FAILED: Could not apply")
     ∧ summary_line run.1 ≠ Some (py "FAILED: Login failed"))
  ∧ (logged_in email password w false →
     exit_status run.2 = 1%Z
     ∧ summary_line run.1 = Some (py "FAILED: Login failed")).
Proof.
  intros run.
  assert (screened str_lower email password w true →
          result_of (apply_easy ChromeSession) w = Ok false →
          result_of (apply_easy ChromeSession) w = Ok false
          ∧ run.2 = Raise (SystemExit 1)
          ∧ exit_status run.2 = 1%Z
          ∧ summary_line run.1 = Some ([10] ++ py "FAILED: Could not apply")
          ∧ summary_line run.1 ≠ Some (py "FAILED: Login failed")) as Hfail.
  { intros Hs HA.
    destruct (main_apply_failed script job_url job_title email password rest w Hs HA)
      as [Hr Hsum].
    fold run in Hr, Hsum.
    split_and!; [done | done | by rewrite Hr | done |].
    rewrite Hsum. intros H. vm_compute in H. discriminate. }
  split_and!.
  - intros Hs Ho. apply Hfail; [done |]. by apply apply_easy_open_fails.
  - intros Hs Ho Hlate. apply Hfail; [done |].
    destruct (apply_easy_opened ChromeSession w Ho) as (_ & _ & [HA | HA] & Htrue);
      [| done].
    destruct (proj1 Htrue HA) as (E1 & E2 & E3 & E4).
    rewrite E1, E2, E3, E4 in Hlate.
    by destruct Hlate as [[? [=]] | [[? [=]] | [[? [=]] | [? [=]]]]].
  - intros Hl.
    destruct (main_login_failed script job_url job_title email password rest w Hl)
      as [Hr Hsum].
    fold run in Hr, Hsum. by rewrite Hr.
Qed.

(** C5.  In a run that passes the eligibility gate and opens the apply flow
    (the wait for "/apply" included), the optional Next control cannot make
    the application fail: whether it is absent, or present and its click
    fails, the run goes on to wait for "/apply/submit", and when that wait
    succeeds it goes on to the submit button.  So up to the submit step the
    only calls that can fail the application are the two waits on the URL.
    What happens at the Next control does not show in the exit status
    either: it is 0 exactly when the wait for "/apply/submit" and the calls
    of the submit step succeed, and 1 exactly when one of them raises. *)
Theorem absent_next_is_not_a_failure script job_url job_title email password rest w :
  screened str_lower email password w true →
  opens w →
  let run :=
    main str_lower (script :: job_url :: job_title :: email :: password :: rest)
         w start in
  Did s_wait_url_submit (WaitUntil 10 (url_contains (py "/apply/submit")))
    ∈ events run.1
  ∧ (raises w s_wait_url_submit = None →
     Did s_wait_submit_btn
       (WaitUntil 10 (element_to_be_clickable
                        (By_XPATH (py "//button[contains(., 'Submit')]"))))
       ∈ events run.1)
  ∧ (exit_status run.2 = 0%Z
     ↔ raises w s_wait_url_submit = None ∧ raises w s_wait_submit_btn = None
       ∧ raises w s_scroll_submit = None ∧ raises w s_click_submit = None)
  ∧ (exit_status run.2 = 1%Z
     ↔ is_Some (raises w s_wait_url_submit) ∨ is_Some (raises w s_wait_submit_btn)
       ∨ is_Some (raises w s_scroll_submit) ∨ is_Some (raises w s_click_submit)).
Proof.
  intros Hs Ho run.
  destruct (apply_easy_opened ChromeSession w Ho) as (Hwait & Hbtn & Hres & Htrue).
  destruct (main_after_apply str_lower script job_url job_title email password rest w Hs)
    as [pre Hrun].
  fold run in Hrun.
  assert (∃ post, events run.1 = pre ++ trace_of (apply_easy ChromeSession) w ++ post)
    as [post Hev].
  { destruct (result_of (apply_easy ChromeSession) w) as [[]|[?|?]];
      injection Hrun as -> _; eauto. }
  split_and!.
  - rewrite Hev, !elem_of_app. tauto.
  - intros H. rewrite Hev, !elem_of_app. right. left. by apply Hbtn.
  - rewrite <- Htrue. destruct Hres as [HA | HA]; rewrite HA in Hrun |- *;
      injection Hrun as _ ->; simpl; split; (done || discriminate).
  - assert (result_of (apply_easy ChromeSession) w = Ok false
            ↔ is_Some (raises w s_wait_url_submit) ∨ is_Some (raises w s_wait_submit_btn)
              ∨ is_Some (raises w s_scroll_submit) ∨ is_Some (raises w s_click_submit))
      as <-.
    { destruct Hres as [HA | HA]; rewrite HA in Htrue |- *.
      - split; [discriminate |]. destruct Htrue as [(-> & -> & -> & ->) _]; [done |].
        intros [[? [=]] | [[? [=]] | [[? [=]] | [? [=]]]]].
      - split; [intros _ | done].
        destruct (raises w s_wait_url_submit); [by left; eexists |].
        destruct (raises w s_wait_submit_btn); [by right; left; eexists |].
        destruct (raises w s_scroll_submit); [by right; right; left; eexists |].
        destruct (raises w s_click_submit); [by right; right; right; eexists |].
        destruct Htrue as [_ Ht]. by discriminate Ht. }
    destruct Hres as [HA | HA]; rewrite HA in Hrun |- *;
      injection Hrun as _ ->; simpl; split; (done || discriminate).
Qed.

End Claims.

End MainFacts.

(** ** The job queue *)

Module QueueFacts.

Import ScrapeDice.

Lemma dict_set_keys {V} (d : list (pystr * V)) k v :
  (dict_set d k v).*1 = if decide (k ∈ d.*1) then d.*1 else d.*1 ++ [k].
Proof.
  induction d as [|[k0 v0] d IH].
  - destruct (decide (k ∈ ([] : list (pystr * V)).*1)) as [H | _]; [| done].
    by apply elem_of_nil in H.
  - cbn [dict_set]. destruct (decide (k0 = k)) as [-> | Hne].
    + destruct (decide (k ∈ ((k, v0) :: d).*1)) as [_ | H]; [done |].
      destruct H. left.
    + rewrite fmap_cons, IH.
      destruct (decide (k ∈ d.*1)) as [Hin | Hnin],
               (decide (k ∈ ((k0, v0) :: d).*1)) as [Hin' | Hnin']; try done.
      * destruct Hnin'. by right.
      * apply elem_of_cons in Hin' as [-> | ?]; done.
Qed.

Lemma dict_set_elem {V} (d : list (pystr * V)) k v k' v' :
  NoDup d.*1 →
  (k', v') ∈ dict_set d k v → (k' = k ∧ v' = v) ∨ ((k', v') ∈ d ∧ k' ≠ k).
Proof.
  induction d as [|[k0 v0] d IH]; simpl; intros Hnd Hin.
  - apply list_elem_of_singleton in Hin as [= -> ->]. by left.
  - apply NoDup_cons in Hnd as [Hk0 Hnd].
    destruct (decide (k0 = k)) as [-> | Hne].
    + apply elem_of_cons in Hin as [[= -> ->] | Hin]; [by left |].
      right. split; [by right |]. intros ->. apply Hk0.
      by apply (list_elem_of_fmap_2 fst) in Hin.
    + apply elem_of_cons in Hin as [[= -> ->] | Hin].
      * right. split; [left | done].
      * destruct (IH Hnd Hin) as [? | [? ?]]; [by left |].
        right. split; [by right | done].
Qed.

(** The dict that [unique_jobs] builds: one item per url, and under each url
    the job scraped last with it. *)
Lemma unique_jobs_dict (all_jobs : list job) :
  let d := foldl (λ d job, dict_set d (job_url job) job) [] all_jobs in
  NoDup d.*1
  ∧ (∀ u, u ∈ d.*1 ↔ u ∈ job_url <$> all_jobs)
  ∧ (∀ k j, (k, j) ∈ d →
       k = job_url j
       ∧ ∃ l1 l2, all_jobs = l1 ++ j :: l2 ∧ job_url j ∉ job_url <$> l2).
Proof.
  induction all_jobs as [|x l IH] using rev_ind; simpl.
  - split_and!; [constructor | done |]. intros k j H. by apply elem_of_nil in H.
  - rewrite foldl_snoc. destruct IH as (Hnd & Hkeys & Hlast).
    set (d := foldl (λ d job, dict_set d (job_url job) job) [] l) in *.
    assert (∀ u, u ∈ (dict_set d (job_url x) x).*1 ↔ u = job_url x ∨ u ∈ d.*1) as Hk.
    { intros u. rewrite dict_set_keys. destruct (decide (job_url x ∈ d.*1)).
      - split; [by right | by intros [-> | ?]].
      - rewrite elem_of_app, list_elem_of_singleton. tauto. }
    split_and!.
    + rewrite dict_set_keys. destruct (decide (job_url x ∈ d.*1)); [done |].
      apply NoDup_app. split_and!; [done | | apply NoDup_singleton].
      intros u Hu Hx. apply list_elem_of_singleton in Hx as ->. done.
    + intros u. rewrite Hk, fmap_snoc, elem_of_app, list_elem_of_singleton, Hkeys. tauto.
    + intros k j Hin. apply dict_set_elem in Hin as [[-> ->] | [Hin Hne]]; [| | done].
      * split; [done |]. exists l, []. split; [done |]. apply not_elem_of_nil.
      * destruct (Hlast k j Hin) as (-> & l1 & l2 & -> & Hl2).
        split; [done |]. exists l1, (l2 ++ [x]). split; [by rewrite <- app_assoc |].
        rewrite fmap_snoc, elem_of_app, list_elem_of_singleton. tauto.
Qed.

Lemma unique_jobs_spec (all_jobs : list job) :
  NoDup (job_url <$> unique_jobs all_jobs)
  ∧ (∀ u, u ∈ job_url <$> unique_jobs all_jobs ↔ u ∈ job_url <$> all_jobs)
  ∧ (∀ j, j ∈ unique_jobs all_jobs →
       ∃ l1 l2, all_jobs = l1 ++ j :: l2 ∧ job_url j ∉ job_url <$> l2).
Proof.
  destruct (unique_jobs_dict all_jobs) as (Hnd & Hkeys & Hlast).
  unfold unique_jobs, dict_values.
  set (d := foldl (λ d job, dict_set d (job_url job) job) [] all_jobs) in *.
  assert (job_url <$> d.*2 = d.*1) as Hurls.
  { clear Hnd Hkeys. induction d as [|[k j] d IH]; [done |]. simpl. f_equal.
    - symmetry. apply (Hlast k j). left.
    - apply IH. intros k' j' H. apply Hlast. by right. }
  rewrite Hurls. split_and!; [done | done |].
  intros j Hj. apply list_elem_of_fmap in Hj as ([k j'] & -> & Hin).
  by apply (Hlast k j').
Qed.

Lemma foldl_append_row (l : list job) (sheet : worksheet) :
  foldl (λ sh j, append_row (queue_row j) sh) sheet l
  = Worksheet (get_all_records sheet) (appended sheet ++ (queue_row <$> l)).
Proof.
  revert sheet. induction l as [|j l IH]; intros sheet; simpl.
  - destruct sheet. simpl. by rewrite app_nil_r.
  - rewrite IH. simpl. by rewrite <- app_assoc.
Qed.

Lemma save_to_job_queue_spec (jobs : list job) (sheet : worksheet) :
  save_to_job_queue jobs sheet
  = Worksheet (get_all_records sheet)
      (appended sheet
       ++ (queue_row <$>
           filter (λ j, job_url j ∉ existing_urls (get_all_records sheet)) jobs)).
Proof.
  unfold save_to_job_queue. destruct jobs as [|j0 jobs].
  - destruct sheet. simpl. by rewrite app_nil_r.
  - cbv zeta.
    destruct (filter _ (j0 :: jobs)) as [|j1 new_jobs] eqn:E.
    + destruct sheet. simpl. by rewrite app_nil_r.
    + apply foldl_append_row.
Qed.

Lemma foldl_extend (scraped : list (list job)) (acc : list job) :
  foldl (λ all_jobs jobs, all_jobs ++ jobs) acc scraped = acc ++ concat scraped.
Proof.
  revert acc. induction scraped as [|jobs scraped IH]; intros acc; simpl.
  - by rewrite app_nil_r.
  - by rewrite IH, app_assoc.
Qed.

Lemma elem_of_existing_urls (existing_data : list record) (u : pystr) :
  u ∈ existing_urls existing_data
  ↔ u ∈ omap (λ row : record, row !! py "job_url") existing_data.
Proof. unfold existing_urls. by rewrite elem_of_list_to_set. Qed.

Lemma first_cells (l : list job) :
  omap head ((λ j, [job_url j; job_title j; keyword j; discovered_at j; status j]) <$> l)
  = job_url <$> l.
Proof. induction l as [|j l IH]; [done |]. cbn. by f_equal. Qed.

(** C7.  Whatever the queue holds and whatever was scraped, [main] leaves the
    records of the queue as they are and appends one row per url of the
    batch that is not in the queue.  A row holds the five cells of its job:
    url, title, keyword, time of discovery and status, in this order, so the
    url of a row is its first cell.  The urls of the appended rows are those
    of the batch that the queue lacks, no url is appended twice, the row
    appended for a url is the job scraped last with it, and a queue without
    duplicate urls stays without duplicate urls. *)
Theorem queue_urls_stay_unique (scraped : list (list job)) (sheet : worksheet) :
  let batch := concat scraped in
  let queued := omap (λ row : record, row !! py "job_url") (get_all_records sheet) in
  ∃ new_jobs,
    let rows :=
      (λ j, [job_url j; job_title j; keyword j; discovered_at j; status j])
        <$> new_jobs in
    let row_urls := omap head rows in
    main scraped sheet = Worksheet (get_all_records sheet) (appended sheet ++ rows)
    ∧ row_urls = job_url <$> new_jobs
    ∧ (∀ u, u ∈ row_urls ↔ u ∈ job_url <$> batch ∧ u ∉ queued)
    ∧ NoDup row_urls
    ∧ (∀ j, j ∈ new_jobs →
         ∃ l1 l2, batch = l1 ++ j :: l2 ∧ job_url j ∉ job_url <$> l2)
    ∧ (NoDup queued → NoDup (queued ++ row_urls)).
Proof.
  intros batch queued. unfold main. rewrite foldl_extend. simpl. fold batch.
  rewrite save_to_job_queue_spec.
  destruct (unique_jobs_spec batch) as (Hnd & Hurls & Hlast).
  set (new_jobs := filter _ (unique_jobs batch)).
  assert (∀ u, u ∈ job_url <$> new_jobs ↔ u ∈ job_url <$> batch ∧ u ∉ queued) as Hnew.
  { intros u. rewrite <- Hurls. unfold new_jobs. split.
    - intros H. apply list_elem_of_fmap in H as (j & -> & Hj).
      apply list_elem_of_filter in Hj as [Hq Hj]. rewrite elem_of_existing_urls in Hq.
      split; [by apply list_elem_of_fmap_2 | done].
    - intros [H Hq]. apply list_elem_of_fmap in H as (j & -> & Hj).
      apply list_elem_of_fmap_2, list_elem_of_filter.
      by rewrite elem_of_existing_urls. }
  assert (NoDup (job_url <$> new_jobs)) as Hnd'.
  { apply (sublist_NoDup _ _ Hnd), fmap_sublist, sublist_filter. }
  exists new_jobs. cbv zeta. rewrite first_cells.
  split_and!; [done | done | done | done | |].
  - intros j Hj. apply Hlast. by apply list_elem_of_filter in Hj as [_ ?].
  - intros Hq. apply NoDup_app. split_and!; [done | | done].
    intros u Hu Hu'. by apply Hnew in Hu' as [_ ?].
Qed.

End QueueFacts.

(** ** The properties at sample inputs *)

Module Samples.

Import ApplyJob Runs ScrapeDice PyStrFacts RunFacts EligibilityFacts MainFacts QueueFacts.

(** C1 at a posting that only says "Full-Time": not eligible. *)
Lemma check_eligibility_verdict_full_time :
  (get_overview_text ascii_lower ChromeSession full_time_only start).2
  = Ok (py "full-time")
  ∧ (check_eligibility ascii_lower ChromeSession full_time_only start).2 = Ok false
  ∧ (∃ line, line ∈ normalized_lines (py "full-time") ∧
       (line = py "w2" ∨ line = py "contract - w2" ∨ line = py "full time"
        ∨ line = py "full-time"))
  ∧ ¬ (∃ line, line ∈ normalized_lines (py "full-time") ∧
         ∃ a b, line = a ++ py "corp to corp" ++ b).
Proof.
  assert ((get_overview_text ascii_lower ChromeSession full_time_only start).2
          = Ok (py "full-time")) as H by (vm_compute; reflexivity).
  assert ((check_eligibility ascii_lower ChromeSession full_time_only start).2
          = Ok false) as Hf by (vm_compute; reflexivity).
  destruct (check_eligibility_verdict ascii_lower ChromeSession full_time_only start
              (py "full-time") H) as [[Hno _] _].
  destruct (Hno Hf) as (Hw & Hc & _).
  exact (conj H (conj Hf (conj Hw Hc))).
Defined.

(** C2 at two postings: "contract - 6" inside a longer line is no valid
    term, "corp to corp" inside a longer line is C2C. *)
Lemma valid_term_exact_c2c_substring_sample :
  has_valid_term (normalized_lines (py "contract - 6 months")) = false
  ∧ str_contains (py "contract - 6 months") (py "contract - 6") = true
  ∧ has_c2c (normalized_lines (py "open to corp to corp only")) = true.
Proof.
  split_and!.
  - apply (proj1 (valid_term_exact_c2c_substring (py "contract - 6 months"))).
    intros line Hin.
    change (line ∈ [py "contract - 6 months"]) in Hin.
    apply list_elem_of_singleton in Hin as ->.
    split_and!; intros H; vm_compute in H; discriminate.
  - vm_compute; reflexivity.
  - apply (proj2 (valid_term_exact_c2c_substring (py "open to corp to corp only"))).
    exists (py "open to corp to corp only"), (py "open to "), (py " only").
    split; [| vm_compute; reflexivity].
    change (py "open to corp to corp only" ∈ [py "open to corp to corp only"]). left.
Defined.

(** C3 where the Job Details region is missing. *)
Lemma no_lines_is_eligible_no_region :
  (get_overview_text ascii_lower ChromeSession no_region start).2 = Ok []
  ∧ (check_eligibility ascii_lower ChromeSession no_region start).2 = Ok true.
Proof.
  apply (proj1 (no_lines_is_eligible ascii_lower ChromeSession no_region start)).
  exists (py "no such element"). vm_compute; reflexivity.
Defined.

(** C10 at two postings with the same lines. *)
Lemma verdict_ignores_order_and_repeats_sample :
  (check_eligibility ascii_lower ChromeSession two_lines start).2
  = (check_eligibility ascii_lower ChromeSession three_lines start).2.
Proof.
  apply (verdict_ignores_order_and_repeats ascii_lower ChromeSession
           two_lines start three_lines start
           (py "full-time" ++ [10] ++ py "remote")
           (py "remote" ++ [10] ++ py "full-time" ++ [10] ++ py "remote")).
  - vm_compute; reflexivity.
  - vm_compute; reflexivity.
  - change (rearranged [py "full-time"; py "remote"]
                       [py "remote"; py "full-time"; py "remote"]).
    apply (rearranged_trans _ [py "remote"; py "full-time"]).
    + apply rearranged_perm, perm_swap.
    + apply (rearranged_dup [py "remote"; py "full-time"] [] (py "remote")). left.
Defined.

(** C4 where the wait for "/apply" times out, and where the apply flow opens
    and the wait for "/apply/submit" times out: the same outcome. *)
Lemma open_failure_is_apply_failure_sample :
  let w := failing s_wait_url_apply timeout_message all_well in
  let w' := failing s_wait_url_submit timeout_message all_well in
  let run := ApplyJob.main ascii_lower sample_argv w start in
  let run' := ApplyJob.main ascii_lower sample_argv w' start in
  (screened ascii_lower (py "me@example.com") (py "secret") w true
   ∧ open_fails w
   ∧ exit_status run.2 = 1%Z
   ∧ summary_line run.1 = Some ([10] ++ py "FAILED: Could not apply"))
  ∧ (screened ascii_lower (py "me@example.com") (py "secret") w' true
     ∧ opens w'
     ∧ is_Some (raises w' s_wait_url_submit)
     ∧ result_of (apply_easy ChromeSession) w' = Ok false
     ∧ exit_status run'.2 = 1%Z
     ∧ summary_line run'.1 = Some ([10] ++ py "FAILED: Could not apply")).
Proof.
  intros w w' run run'.
  assert (screened ascii_lower (py "me@example.com") (py "secret") w true) as Hs.
  { unfold screened, logged_in. split_and!; vm_compute; reflexivity. }
  assert (open_fails w) as Ho.
  { unfold open_fails. do 3 right. exists timeout_message. vm_compute; reflexivity. }
  assert (screened ascii_lower (py "me@example.com") (py "secret") w' true) as Hs'.
  { unfold screened, logged_in. split_and!; vm_compute; reflexivity. }
  assert (opens w') as Ho'.
  { unfold opens. split_and!; vm_compute; reflexivity. }
  assert (is_Some (raises w' s_wait_url_submit)) as Hlate.
  { exists timeout_message. vm_compute; reflexivity. }
  destruct (proj1 (open_failure_is_apply_failure ascii_lower (py "apply_job.py")
                     (py "https://www.dice.com/job-detail/1") (py "Engineer")
                     (py "me@example.com") (py "secret") [] w) Hs Ho)
    as (_ & _ & Hstatus & Hsum & _).
  destruct (proj1 (proj2 (open_failure_is_apply_failure ascii_lower (py "apply_job.py")
                     (py "https://www.dice.com/job-detail/1") (py "Engineer")
                     (py "me@example.com") (py "secret") [] w')) Hs' Ho'
              (or_introl Hlate))
    as (HA' & _ & Hstatus' & Hsum' & _).
  exact (conj (conj Hs (conj Ho (conj Hstatus Hsum)))
              (conj Hs' (conj Ho' (conj Hlate (conj HA' (conj Hstatus' Hsum')))))).
Defined.

(** The claim C4 as stated fails: a timeout while opening the apply flow, a
    timeout at the wait for "/apply/submit" and a failing click on Submit
    give the same result of [apply_easy], the same printed lines and the same
    result of [main]; and the exit status is that of a login failure. *)
Lemma apply_failures_look_alike :
  let run k := ApplyJob.main ascii_lower sample_argv (failing k timeout_message all_well) start in
  let applies k := result_of (apply_easy ChromeSession) (failing k timeout_message all_well) in
  applies s_wait_url_apply = applies s_wait_url_submit
  ∧ applies s_wait_url_apply = applies s_click_submit
  ∧ (run s_wait_url_apply).2 = (run s_wait_url_submit).2
  ∧ (run s_wait_url_apply).2 = (run s_click_submit).2
  ∧ printed (events (run s_wait_url_apply).1) = printed (events (run s_wait_url_submit).1)
  ∧ printed (events (run s_wait_url_apply).1) = printed (events (run s_click_submit).1)
  ∧ exit_status (run s_wait_url_apply).2 = exit_status (run s_wait_signin).2.
Proof. vm_compute. repeat split. Qed.

(** C5 where the Next control never shows up. *)
Lemma absent_next_is_not_a_failure_sample :
  let w := failing s_wait_next timeout_message all_well in
  let run := ApplyJob.main ascii_lower sample_argv w start in
  screened ascii_lower (py "me@example.com") (py "secret") w true
  ∧ opens w
  ∧ Did s_wait_url_submit (WaitUntil 10 (url_contains (py "/apply/submit")))
      ∈ events run.1
  ∧ exit_status run.2 = 0%Z.
Proof.
  intros w run.
  assert (screened ascii_lower (py "me@example.com") (py "secret") w true) as Hs.
  { unfold screened, logged_in. split_and!; vm_compute; reflexivity. }
  assert (opens w) as Ho.
  { unfold opens. split_and!; vm_compute; reflexivity. }
  destruct (absent_next_is_not_a_failure ascii_lower (py "apply_job.py")
              (py "https://www.dice.com/job-detail/1") (py "Engineer")
              (py "me@example.com") (py "secret") [] w Hs Ho)
    as (Hwait & _ & Hstatus & _).
  refine (conj Hs (conj Ho (conj Hwait _))).
  apply Hstatus. split_and!; vm_compute; reflexivity.
Defined.

(** C9 fails on the code: when the wait for the e-mail field times out, the
    run ends as a login failure and no screenshot was asked for; when login
    ends on a page that is not authenticated, the screenshot is taken. *)
Lemma login_exception_takes_no_screenshot :
  let run := ApplyJob.main ascii_lower sample_argv
               (failing s_wait_email timeout_message all_well) start in
  let other := ApplyJob.main ascii_lower sample_argv
                 (showing s_current_url_1 (py "https://www.dice.com/login") all_well)
                 start in
  summary_line run.1 = Some (py "FAILED: Login failed")
  ∧ exit_status run.2 = 1%Z
  ∧ existsb is_screenshot (events run.1) = false
  ∧ summary_line other.1 = Some (py "FAILED: Login failed")
  ∧ exit_status other.2 = 1%Z
  ∧ existsb is_screenshot (events other.1) = true.
Proof. vm_compute. repeat split. Qed.

(** C7 with url A in the queue and urls A and B scraped: only the row of B
    is appended, with its five cells. *)
Lemma queue_urls_stay_unique_sample :
  appended (ScrapeDice.main [[job_A; job_B]] queue_A)
  = [[py "B"; py "t2"; py "k"; py "d"; py "Pending"]]
  ∧ ∃ new_jobs,
      ScrapeDice.main [[job_A; job_B]] queue_A
      = Worksheet (get_all_records queue_A)
          (appended queue_A
           ++ ((λ j, [job_url j; job_title j; keyword j; discovered_at j; status j])
                 <$> new_jobs))
      ∧ NoDup (job_url <$> new_jobs)
      ∧ NoDup ([py "A"] ++ (job_url <$> new_jobs)).
Proof.
  split; [vm_compute; reflexivity |].
  destruct (queue_urls_stay_unique [[job_A; job_B]] queue_A)
    as (new_jobs & Hmain & Hcol & _ & Hnd & _ & Hkeep).
  cbv zeta in Hmain, Hcol, Hnd, Hkeep. rewrite Hcol in Hnd, Hkeep.
  exists new_jobs. refine (conj Hmain (conj Hnd _)).
  apply Hkeep. vm_compute. apply NoDup_cons. split; [apply not_elem_of_nil | apply NoDup_nil_2].
Defined.

End Samples.


(** ** Scraping *)

Module ScraperFacts.

Import ScrapeDice Scraper PyStrFacts.

(** The job a link yields: one exactly when its href contains
    "/job-detail/". *)
Lemma add_link_elem keyword now i l all_jobs j :
  j ∈ add_link keyword now i l all_jobs
  ↔ j ∈ all_jobs
    ∨ ∃ h, href l = Some h ∧ str_contains h (py "/job-detail/") = true
           ∧ j = Job (full_url h) (default (py "Unknown") (job_title_text l))
                     keyword (now i) (py "Pending").
Proof.
  unfold add_link. destruct (href l) as [h|].
  - destruct (str_contains h (py "/job-detail/")) eqn:Hc.
    + destruct h as [|c h]; [by vm_compute in Hc |]. simpl.
      rewrite elem_of_app, list_elem_of_singleton. split.
      * intros [? | ->]; [by left |]. right. exists (c :: h).
        split_and!; [done | done |]. by destruct (job_title_text l).
      * intros [? | (h' & [= <-] & _ & ->)]; [by left |]. right.
        by destruct (job_title_text l).
    + rewrite andb_false_r. split; [by left |].
      intros [? | (h' & [= <-] & Hc' & _)]; [done | congruence].
  - split; [by left |]. by intros [? | (h' & [=] & _)].
Qed.

Lemma add_link_app keyword now i l all_jobs :
  add_link keyword now i l all_jobs = all_jobs ++ add_link keyword now i l [].
Proof.
  unfold add_link. destruct (href l) as [h|]; [| by rewrite app_nil_r].
  destruct (truthy h && str_contains h (py "/job-detail/")); [done |].
  by rewrite app_nil_r.
Qed.

Lemma add_links_app keyword now i links all_jobs :
  add_links keyword now i links all_jobs
  = all_jobs ++ add_links keyword now i links [].
Proof.
  revert i all_jobs. induction links as [|l links IH]; intros i all_jobs; simpl.
  - by rewrite app_nil_r.
  - rewrite (IH (S i) (add_link keyword now i l all_jobs)),
            (IH (S i) (add_link keyword now i l [])).
    by rewrite (add_link_app _ _ _ _ all_jobs), app_assoc.
Qed.

Lemma add_links_elem keyword now i links j :
  j ∈ add_links keyword now i links []
  ↔ ∃ n l h, links !! n = Some l ∧ href l = Some h
             ∧ str_contains h (py "/job-detail/") = true
             ∧ j = Job (full_url h) (default (py "Unknown") (job_title_text l))
                       keyword (now (i + n)%nat) (py "Pending").
Proof.
  revert i. induction links as [|l links IH]; intros i; simpl.
  - split; [intros H; by apply elem_of_nil in H | by intros (n & ? & ? & [=] & _)].
  - rewrite add_links_app, elem_of_app, add_link_elem, IH. split.
    + intros [[H | (h & Hh & Hc & ->)] | (n & l' & h & Hn & Hh & Hc & ->)].
      * by apply elem_of_nil in H.
      * exists 0%nat, l, h. by rewrite Nat.add_0_r.
      * exists (S n), l', h. by rewrite Nat.add_succ_r.
    + intros ([|n] & l' & h & Hn & Hh & Hc & ->); simpl in Hn.
      * injection Hn as <-. left. right. exists h. by rewrite Nat.add_0_r.
      * right. exists n, l', h. by rewrite Nat.add_succ_r.
Qed.

Lemma elem_of_concat {A} (x : A) (ls : list (list A)) :
  x ∈ concat ls ↔ ∃ l, x ∈ l ∧ l ∈ ls.
Proof.
  induction ls as [|l0 ls IH]; simpl.
  - split; [intros H; by apply elem_of_nil in H |].
    intros (l & _ & H). by apply elem_of_nil in H.
  - rewrite elem_of_app, IH. split.
    + intros [H | (l & Hx & Hl)]; [exists l0 | exists l]; (split; [done |]);
        [left | by right].
    + intros (l & Hx & Hl). apply elem_of_cons in Hl as [-> | Hl]; [by left |].
      right. by exists l.
Qed.

Lemma scrape_pages_spec b keyword location posted_date pages st :
  foldl (scrape_page b keyword location posted_date) st pages
  = (st.1 ++ (search_url keyword location posted_date <$> pages),
     st.2 ++ concat ((λ page, add_links keyword (clock b page) 0
                                (job_links (fetch b page)) []) <$> pages)).
Proof.
  revert st. induction pages as [|page pages IH]; intros [reqs jobs]; simpl.
  - by rewrite !app_nil_r.
  - rewrite IH. unfold scrape_page. simpl.
    by rewrite add_links_app, <- !app_assoc.
Qed.

Lemma scraped_job_origin b keyword location posted_date max_pages j :
  j ∈ (scrape_dice_jobs b keyword location posted_date max_pages).2 →
  ∃ page n l h,
    (1 ≤ page ≤ max_pages)%nat
    ∧ job_links (fetch b page) !! n = Some l ∧ href l = Some h
    ∧ str_contains h (py "/job-detail/") = true
    ∧ j = Job (full_url h) (default (py "Unknown") (job_title_text l))
              keyword (clock b page n) (py "Pending").
Proof.
  unfold scrape_dice_jobs. rewrite scrape_pages_spec. simpl.
  rewrite elem_of_concat.
  intros (jobs & Hj & Hjobs). apply list_elem_of_fmap in Hjobs as (page & -> & Hp).
  apply elem_of_seq in Hp. apply add_links_elem in Hj as (n & l & h & ? & ? & ? & ->).
  exists page, n, l, h. split_and!; [lia | lia | done..].
Qed.

(** X2.  A job is returned by [scrape_dice_jobs] exactly when some link of
    some page from 1 to [max_pages] has an href that contains
    "/job-detail/"; the job then has that href, made absolute, as url, the
    text of the title span ("Unknown" without one), the keyword searched
    for, the time read at that link, and status "Pending".  Links without
    href, or with another href, give no job. *)
Theorem scraped_job_iff b keyword location posted_date max_pages j :
  j ∈ (scrape_dice_jobs b keyword location posted_date max_pages).2
  ↔ ∃ page n l h,
      (1 ≤ page ≤ max_pages)%nat
      ∧ job_links (fetch b page) !! n = Some l ∧ href l = Some h
      ∧ str_contains h (py "/job-detail/") = true
      ∧ j = Job (full_url h) (default (py "Unknown") (job_title_text l))
                keyword (clock b page n) (py "Pending").
Proof.
  split; [apply scraped_job_origin |].
  unfold scrape_dice_jobs. rewrite scrape_pages_spec. simpl.
  rewrite elem_of_concat.
  - intros (page & n & l & h & Hp & Hn & Hh & Hc & ->).
    exists (add_links keyword (clock b page) 0 (job_links (fetch b page)) []). split.
    + apply add_links_elem. by exists n, l, h.
    + apply (list_elem_of_fmap_2 (λ page, add_links keyword (clock b page) 0
                                        (job_links (fetch b page)) [])).
      apply elem_of_seq. lia.
Qed.

Lemma full_url_absolute h : startswith (full_url h) (py "http") = true.
Proof.
  unfold full_url. destruct (startswith h (py "http")) eqn:E; simpl; [done |].
  first [done | apply startswith_spec; by exists (py "s://www.dice.com" ++ h)].
Qed.

Lemma full_url_keeps h sub :
  str_contains h sub = true → str_contains (full_url h) sub = true.
Proof.
  unfold full_url. destruct (negb _); [| done].
  rewrite !str_contains_spec. intros (a & c & ->).
  exists (py "https://www.dice.com" ++ a), c. by rewrite <- app_assoc.
Qed.

(** X3.  Every job that [scrape_dice_jobs] returns is fit for the queue: its
    status is "Pending", its keyword is the one searched for, and its url is
    absolute (it starts with "http") and is a job-detail url. *)
Theorem scraped_job_wellformed b keyword location posted_date max_pages j :
  j ∈ (scrape_dice_jobs b keyword location posted_date max_pages).2 →
  status j = py "Pending" ∧ ScrapeDice.keyword j = keyword
  ∧ startswith (job_url j) (py "http") = true
  ∧ str_contains (job_url j) (py "/job-detail/") = true.
Proof.
  intros H. apply scraped_job_origin in H as (page & n & l & h & _ & _ & _ & Hc & ->).
  simpl. split_and!; [done | done | apply full_url_absolute | by apply full_url_keeps].
Qed.

Lemma truthy_spec (x : pystr) : truthy x = true ↔ x ≠ [].
Proof. by destruct x. Qed.

Lemma scrape_filters_elem boards i filters r :
  r ∈ scrape_filters boards i filters
  ↔ ∃ n row,
      filters !! n = Some row ∧ get_or row (py "Keyword") [] ≠ []
      ∧ r = scrape_dice_jobs (boards (i + n)%nat)
              (get_or row (py "Keyword") [])
              (get_or row (py "Location") (py "Remote"))
              (get_or row (py "PostedDate") (py "ONE")) 5.
Proof.
  revert i. induction filters as [|row0 filters IH]; intros i.
  - split; [intros H; by apply elem_of_nil in H | by intros (n & ? & [=] & _)].
  - cbn [scrape_filters]. cbv zeta.
    destruct (truthy (get_or row0 (py "Keyword") [])) eqn:Hk.
    + rewrite elem_of_cons, IH. apply truthy_spec in Hk. split.
      * intros [-> | (n & row & Hn & Hrow & ->)].
        -- exists 0%nat, row0. by rewrite Nat.add_0_r.
        -- exists (S n), row. by rewrite Nat.add_succ_r.
      * intros ([|n] & row & Hn & Hrow & ->); simpl in Hn.
        -- injection Hn as <-. left. by rewrite Nat.add_0_r.
        -- right. exists n, row. by rewrite Nat.add_succ_r.
    + rewrite IH. apply not_true_iff_false in Hk. rewrite truthy_spec in Hk. split.
      * intros (n & row & Hn & Hrow & ->).
        exists (S n), row. by rewrite Nat.add_succ_r.
      * intros ([|n] & row & Hn & Hrow & ->); simpl in Hn.
        -- injection Hn as <-. done.
        -- exists n, row. by rewrite Nat.add_succ_r.
Qed.

(** X4.  [main] scrapes exactly for the filter rows whose Keyword is present
    and not empty, each over five pages, with "Remote" as location and "ONE"
    as posting date where the row has no such column; rows without keyword
    are passed over. *)
Theorem filters_scraped_iff boards filters r :
  r ∈ scrape_filters boards 0 filters
  ↔ ∃ n row,
      filters !! n = Some row ∧ get_or row (py "Keyword") [] ≠ []
      ∧ r = scrape_dice_jobs (boards n)
              (get_or row (py "Keyword") [])
              (get_or row (py "Location") (py "Remote"))
              (get_or row (py "PostedDate") (py "ONE")) 5.
Proof. apply scrape_filters_elem. Qed.

(** X5.  When no filter row has a keyword, nothing is scraped and the queue
    is left as it is. *)
Theorem no_keyword_no_change boards filters sheet :
  (∀ row, row ∈ filters → get_or row (py "Keyword") [] = []) →
  scrape_filters boards 0 filters = []
  ∧ main_of_filters boards filters sheet = sheet.
Proof.
  intros H.
  assert (scrape_filters boards 0 filters = []) as E.
  { destruct (scrape_filters boards 0 filters) as [|r rs] eqn:E; [done |].
    assert (r ∈ scrape_filters boards 0 filters) as Hr by (rewrite E; left).
    apply scrape_filters_elem in Hr as (n & row & Hn & Hk & _).
    destruct Hk. apply H. by apply list_elem_of_lookup_2 in Hn. }
  split; [done |]. unfold main_of_filters. by rewrite E.
Qed.

(** X6.  Every row that a run of the discovery script appends to the queue
    comes from a job with status "Pending", a keyword that is not empty, an
    absolute job-detail url, and a url the queue did not hold; the records
    of the queue are left as they are. *)
Theorem appended_rows_wellformed boards filters sheet :
  ∃ new_jobs,
    main_of_filters boards filters sheet
    = Worksheet (get_all_records sheet) (appended sheet ++ (queue_row <$> new_jobs))
    ∧ ∀ j, j ∈ new_jobs →
        status j = py "Pending" ∧ keyword j ≠ []
        ∧ startswith (job_url j) (py "http") = true
        ∧ str_contains (job_url j) (py "/job-detail/") = true
        ∧ job_url j ∉ existing_urls (get_all_records sheet).
Proof.
  unfold main_of_filters, main. rewrite QueueFacts.foldl_extend. simpl.
  rewrite QueueFacts.save_to_job_queue_spec.
  eexists. split; [done |]. intros j Hj.
  apply list_elem_of_filter in Hj as [Hnew Hj].
  destruct (QueueFacts.unique_jobs_spec (concat (snd <$> scrape_filters boards 0 filters)))
    as (_ & _ & Hlast).
  destruct (Hlast j Hj) as (l1 & l2 & Hbatch & _).
  assert (j ∈ concat (snd <$> scrape_filters boards 0 filters)) as Hin.
  { rewrite Hbatch, elem_of_app. right. left. }
  apply elem_of_concat in Hin as (jobs & Hjobs & Hin).
  apply list_elem_of_fmap in Hin as (r & -> & Hr).
  apply scrape_filters_elem in Hr as (n & row & _ & Hk & ->).
  apply scraped_job_origin in Hjobs as (page & m & l & h & _ & _ & _ & Hc & ->).
  simpl. split_and!; [done | done | apply full_url_absolute | by apply full_url_keeps | done].
Qed.

Lemma unique_jobs_urls (all_jobs : list job) :
  job_url <$> unique_jobs all_jobs
  = (foldl (λ d job, dict_set d (job_url job) job) [] all_jobs).*1.
Proof.
  destruct (QueueFacts.unique_jobs_dict all_jobs) as (_ & _ & Hlast).
  unfold unique_jobs, dict_values.
  set (d := foldl (λ d job, dict_set d (job_url job) job) [] all_jobs) in *.
  clearbody d. induction d as [|[k j] d IH]; [done |]. simpl. f_equal.
  - symmetry. apply (Hlast k j). left.
  - apply IH. intros k' j' H. apply Hlast. by right.
Qed.

(** X7.  The deduplicated batch keeps the urls in the order in which they
    were first scraped: its urls are those of the batch with every repeat
    after the first struck out ([remove_dups] keeps the last of equal
    elements, so between two reversals it keeps the first). *)
Theorem unique_jobs_in_order_of_discovery (all_jobs : list job) :
  job_url <$> unique_jobs all_jobs
  = reverse (remove_dups (reverse (job_url <$> all_jobs))).
Proof.
  rewrite unique_jobs_urls.
  induction all_jobs as [|x l IH] using rev_ind; [done |].
  rewrite foldl_snoc, QueueFacts.dict_set_keys, IH, fmap_snoc, reverse_snoc.
  cbn [remove_dups].
  assert (job_url x ∈ reverse (remove_dups (reverse (job_url <$> l)))
          ↔ job_url x ∈ reverse (job_url <$> l)) as Hiff.
  { by rewrite elem_of_reverse, elem_of_remove_dups. }
  destruct (decide (job_url x ∈ reverse (remove_dups (reverse (job_url <$> l)))))
    as [Hin | Hnin];
    destruct (decide_rel elem_of (job_url x) (reverse (job_url <$> l)))
      as [Hin' | Hnin']; try tauto.
  by rewrite reverse_cons.
Qed.

End ScraperFacts.

(** ** The stages of a run *)

Module StageFacts.

Import ApplyJob Runs Stages RunFacts MainFacts.

Lemma trace_of_bind {A B} (m : M A) (f : A → M B) w :
  tidy m → (∀ a, tidy (f a)) →
  trace_of (m ≫= f) w
  = trace_of m w ++ match result_of m w with
                    | Ok a => trace_of (f a) w
                    | Raise _ => []
                    end.
Proof.
  intros Hm Hf. unfold trace_of at 1. rewrite run_bind, (tidy_run m Hm w start).
  destruct (result_of m w) as [a|e]; [| by rewrite app_nil_r].
  by rewrite (tidy_run (f a) (Hf a) w).
Qed.

Lemma trace_of_try_except {A} (body : M A) (handler : pystr → M A) w :
  tidy body → (∀ msg, tidy (handler msg)) →
  trace_of (try_except body handler) w
  = trace_of body w ++ match result_of body w with
                       | Raise (PyException msg) => trace_of (handler msg) w
                       | _ => []
                       end.
Proof.
  intros Hm Hh. unfold trace_of at 1, try_except. rewrite (tidy_run body Hm w start).
  destruct (result_of body w) as [a|[msg|code]];
    [by rewrite app_nil_r | | by rewrite app_nil_r].
  by rewrite (tidy_run (handler msg) (Hh msg) w).
Qed.

Lemma trace_of_try_except_all {A} (body handler : M A) w :
  tidy body → tidy handler →
  trace_of (try_except_all body handler) w
  = trace_of body w ++ match result_of body w with
                       | Raise _ => trace_of handler w
                       | Ok _ => []
                       end.
Proof.
  intros Hm Hh. unfold trace_of at 1, try_except_all.
  rewrite (tidy_run body Hm w start).
  destruct (result_of body w) as [a|e]; [by rewrite app_nil_r |].
  by rewrite (tidy_run handler Hh w).
Qed.

Lemma calls_in_nil P : calls_in P [].
Proof. intros k a H. by apply elem_of_nil in H. Qed.

Lemma calls_in_app P t1 t2 : calls_in P t1 → calls_in P t2 → calls_in P (t1 ++ t2).
Proof. intros H1 H2 k a H. apply elem_of_app in H as [H | H]; eauto. Qed.

Lemma neat_ret P {A} (a : A) : neat P (mret a).
Proof. split; [apply tidy_ret | intros w; apply calls_in_nil]. Qed.

Lemma neat_print P line : neat P (print line).
Proof.
  split; [apply tidy_print |]. intros w k a H.
  by apply list_elem_of_singleton in H.
Qed.

Lemma neat_sleep P a b : neat P (sleep_uniform a b).
Proof.
  split; [by apply tidy_emit |]. intros w k c H.
  by apply list_elem_of_singleton in H.
Qed.

Lemma neat_human_pause P a b : neat P (human_pause a b).
Proof. apply neat_sleep. Qed.

Lemma neat_call (P : stage → Prop) k a : a ≠ Quit → P (stage_of k) → neat P (call k a).
Proof.
  intros Ha HP. split; [by apply tidy_call |]. intros w k' a' H.
  unfold trace_of, call in H. rewrite run_bind in H. unfold emit, outcome in H.
  destruct (raises w k); simpl in H; by apply list_elem_of_singleton in H as [= -> _].
Qed.

Lemma neat_bind P {A B} (m : M A) (f : A → M B) :
  neat P m → (∀ a, neat P (f a)) → neat P (m ≫= f).
Proof.
  intros [Hm Cm] Hf. split; [apply tidy_bind; [done | intros a; apply Hf] |].
  intros w. rewrite trace_of_bind; [| done | intros a; apply Hf].
  apply calls_in_app; [apply Cm |].
  destruct (result_of m w) as [a|]; [apply Hf | apply calls_in_nil].
Qed.

Lemma neat_read (P : stage → Prop) k a : a ≠ Quit → P (stage_of k) → neat P (read k a).
Proof.
  intros Ha HP. apply neat_bind; [by apply neat_call |]. intros _.
  split; [apply tidy_answer |]. intros w. apply calls_in_nil.
Qed.

Lemma neat_try_except P {A} (body : M A) (handler : pystr → M A) :
  neat P body → (∀ msg, neat P (handler msg)) → neat P (try_except body handler).
Proof.
  intros [Hm Cm] Hh. split; [apply tidy_try_except; [done | intros a; apply Hh] |].
  intros w. rewrite trace_of_try_except; [| done | intros a; apply Hh].
  apply calls_in_app; [apply Cm |].
  destruct (result_of body w) as [a|[msg|code]];
    [apply calls_in_nil | apply Hh | apply calls_in_nil].
Qed.

Lemma neat_try_except_all P {A} (body handler : M A) :
  neat P body → neat P handler → neat P (try_except_all body handler).
Proof.
  intros [Hm Cm] [Hh Ch]. split; [by apply tidy_try_except_all |].
  intros w. rewrite trace_of_try_except_all; [| done | done].
  apply calls_in_app; [apply Cm |].
  destruct (result_of body w) as [a|e]; [apply calls_in_nil | apply Ch].
Qed.

Ltac neat_step :=
  lazymatch goal with
  | |- neat _ (mret _) => apply neat_ret
  | |- neat _ (print _) => apply neat_print
  | |- neat _ (human_pause _ _) => apply neat_human_pause
  | |- neat _ (sleep_uniform _ _) => apply neat_sleep
  | |- neat _ (call _ _) => apply neat_call; [discriminate | reflexivity]
  | |- neat _ (read _ _) => apply neat_read; [discriminate | reflexivity]
  | |- neat _ (try_except _ _) => apply neat_try_except
  | |- neat _ (try_except_all _ _) => apply neat_try_except_all
  | |- neat _ (if ?b then _ else _) => destruct b
  | |- neat _ (_ ≫= _) => apply neat_bind
  | |- ∀ _, _ => intro
  end.

Lemma neat_simulate_typing_from (P : stage → Prop) k i text :
  (∀ n, P (stage_of (k n))) → neat P (simulate_typing_from k i text).
Proof.
  intros HP. revert i. induction text as [|char rest IH]; intros i; simpl.
  - apply neat_ret.
  - unfold send_keys. apply neat_bind; [apply neat_call; [discriminate | apply HP] |].
    intros _. apply neat_bind; [apply neat_sleep |]. intros _. apply IH.
Qed.

Lemma neat_init_driver : neat (λ st, st = Starting) init_driver.
Proof. unfold init_driver. repeat neat_step. Qed.

Lemma neat_login driver email password :
  neat (λ st, st = LoggingIn) (login driver email password).
Proof.
  unfold login, driver_get, wait_until, clear, execute_script, current_url,
    save_screenshot, simulate_typing.
  repeat first [by apply neat_simulate_typing_from | neat_step].
Qed.

Lemma neat_check_eligibility str_lower driver :
  neat (λ st, st = Screening) (check_eligibility str_lower driver).
Proof. unfold check_eligibility, get_overview_text. repeat neat_step. Qed.

Lemma neat_apply_easy driver : neat (λ st, st = Applying) (apply_easy driver).
Proof. unfold apply_easy, wait_until, execute_script, click. repeat neat_step. Qed.

Ltac spot H :=
  repeat first
    [ apply elem_of_app in H as [H | H]
    | apply elem_of_cons in H as [H | H]
    | (by apply elem_of_nil in H) ].

Section WithLower.

Variable str_lower : pystr → pystr.

(** X8.  The stages of a run come in order, and none is entered unless the
    ones before it succeeded: a call of [login] is made only after
    [init_driver] returned, the job page is opened only after [login]
    returned [True], the page is read for the eligibility check only after
    it was opened and scrolled, and a call of the apply flow is made only
    after [check_eligibility] returned [True].  In particular the script
    never touches the apply button of a posting it found ineligible. *)
Theorem stages_in_order script job_url job_title email password rest w k a :
  Did k a ∈ events (main str_lower
                      (script :: job_url :: job_title :: email :: password :: rest)
                      w start).1 →
  match stage_of k with
  | Starting | Releasing => True
  | LoggingIn => result_of init_driver w = Ok ChromeSession
  | OpeningJob => logged_in email password w true
  | Screening =>
      logged_in email password w true
      ∧ raises w s_get_job = None ∧ raises w s_scroll_page = None
  | Applying => screened str_lower email password w true
  end.
Proof.
  intros Hin. rewrite main_run in Hin. unfold main_flat, try_block in Hin.
  destruct neat_init_driver as [_ CI]. specialize (CI w).
  destruct (neat_login ChromeSession email password) as [_ CL]. specialize (CL w).
  destruct (neat_check_eligibility str_lower ChromeSession) as [_ CE]. specialize (CE w).
  destruct (neat_apply_easy ChromeSession) as [_ CA]. specialize (CA w).
  unfold screened, logged_in.
  repeat match type of Hin with
         | context [match result_of ?m ?w with _ => _ end] =>
             destruct (result_of m w) as [[]|[?|?]]
         | context [match raises ?w ?k with _ => _ end] => destruct (raises w k)
         end.
  all: cbn -[trace_of py rule] in Hin; spot Hin.
  all: first
         [ discriminate Hin
         | injection Hin as -> _; by simpl
         | apply CI in Hin; by rewrite Hin
         | apply CL in Hin; by rewrite Hin
         | apply CE in Hin; by rewrite Hin
         | apply CA in Hin; by rewrite Hin ].
Qed.

End WithLower.

End StageFacts.

(** ** More on the functions of the application script *)

Module ApplyFacts.

Import ApplyJob Runs Stages PyStrFacts RunFacts MainFacts StageFacts.

Lemma result_of_bind {A B} (m : M A) (f : A → M B) w :
  tidy m → (∀ a, tidy (f a)) →
  result_of (m ≫= f) w
  = match result_of m w with
    | Ok a => result_of (f a) w
    | Raise e => Raise e
    end.
Proof.
  intros Hm Hf. unfold result_of at 1. rewrite run_bind, (tidy_run m Hm w start).
  destruct (result_of m w) as [a|e]; [| done].
  by rewrite (tidy_run (f a) (Hf a) w).
Qed.

Lemma tidy_simulate_typing_from k i text : tidy (simulate_typing_from k i text).
Proof. by apply (neat_simulate_typing_from (λ _, True)). Qed.

Lemma keys_sent_key k c t : keys_sent (Did k (SendKeys c) :: t) = c :: keys_sent t.
Proof. reflexivity. Qed.

Lemma keys_sent_sleep a b t : keys_sent (Sleep a b :: t) = keys_sent t.
Proof. reflexivity. Qed.

Lemma typing_from k i text w :
  let m := simulate_typing_from k i text in
  keys_sent (trace_of m w) `prefix_of` text
  ∧ (result_of m w = Ok () ↔ ∀ n, (n < length text)%nat → raises w (k (i + n)%nat) = None)
  ∧ (result_of m w = Ok () → keys_sent (trace_of m w) = text).
Proof.
  revert i. induction text as [|char rest IH]; intros i; cbn zeta.
  - split_and!; [done | | done]. split; [intros _ n Hn; simpl in Hn; lia | done].
  - cbn [simulate_typing_from].
    assert (∀ a : (), tidy (sleep_uniform 50 150;; simulate_typing_from k (S i) rest)) as Hk.
    { intros _. apply tidy_bind; [by apply tidy_emit |].
      intros _. apply tidy_simulate_typing_from. }
    assert (tidy (send_keys (k i) char)) as Hs by (by apply tidy_call).
    rewrite trace_of_bind, result_of_bind by done.
    assert (trace_of (send_keys (k i) char) w = [Did (k i) (SendKeys char)]) as ->.
    { unfold trace_of, send_keys, call. rewrite run_bind. unfold emit, outcome.
      by destruct (raises w (k i)). }
    assert (result_of (send_keys (k i) char) w
            = match raises w (k i) with
              | Some msg => Raise (PyException msg)
              | None => Ok ()
              end) as ->.
    { unfold result_of, send_keys, call. rewrite run_bind. unfold emit, outcome.
      by destruct (raises w (k i)). }
    destruct (raises w (k i)) as [msg|] eqn:E.
    + simpl. split_and!; [by apply prefix_cons, prefix_nil | | done].
      split; [done |]. intros H. specialize (H 0%nat). rewrite Nat.add_0_r, E in H.
      simpl in H. by discriminate H; lia.
    + rewrite trace_of_bind, result_of_bind
        by (by apply tidy_emit || (intros; apply tidy_simulate_typing_from)).
      destruct (IH (S i)) as (Hp & Hiff & Heq). cbn zeta in Hp, Hiff, Heq.
      change (trace_of (sleep_uniform 50 150) w) with [Sleep 50 150].
      change (result_of (sleep_uniform 50 150) w) with (Ok ()).
      cbn [app]. rewrite keys_sent_key, keys_sent_sleep.
      split_and!.
      * by apply prefix_cons.
      * rewrite Hiff. split.
        -- intros H [|n] Hn; [by rewrite Nat.add_0_r |].
           rewrite Nat.add_succ_r. apply H. simpl in Hn. lia.
        -- intros H n Hn. specialize (H (S n)). rewrite Nat.add_succ_r in H.
           apply H. simpl. lia.
      * intros H. by rewrite (Heq H).
Qed.

Lemma typing_result k text w :
  result_of (simulate_typing k text) w = Ok () ↔ typed w k text.
Proof. destruct (typing_from k 0 text w) as (_ & Hiff & _). apply Hiff. Qed.

(** X9.  [simulate_typing] hands the characters of the text to [send_keys]
    one by one and in order, and nothing else: what it has sent is always
    the beginning of the text; it returns exactly when every keystroke goes
    through, and has then sent the whole text. *)
Theorem typing_sends_the_text k text w :
  keys_sent (trace_of (simulate_typing k text) w) `prefix_of` text
  ∧ (result_of (simulate_typing k text) w = Ok () ↔ typed w k text)
  ∧ (typed w k text → keys_sent (trace_of (simulate_typing k text) w) = text).
Proof.
  destruct (typing_from k 0 text w) as (Hp & Hiff & Heq). cbn zeta in Hp, Hiff, Heq.
  unfold simulate_typing, typed. split_and!; [done | done |].
  intros H. apply Heq, Hiff, H.
Qed.

Ltac login_simpl :=
  cbn -[simulate_typing py N.mul trace_of result_of str_contains].

Ltac login_unfold :=
  unfold login, clear, current_url, save_screenshot, read, answer; run_unfold.

Ltac leaf_false :=
  exists false;
  split; [reflexivity | split; [discriminate | intros ?; exfalso; intuition congruence]].

Ltac leaf_true :=
  exists true; split; [reflexivity | split; [intros _; intuition | done]].

(** [login], case by case. *)
Lemma login_cases driver email password w :
  match raises w s_get_login with
  | Some msg => result_of (login driver email password) w = Raise (PyException msg)
  | None =>
      ∃ b, result_of (login driver email password) w = Ok b
           ∧ (b = true
              ↔ raises w s_wait_email = None ∧ raises w s_clear_email = None
                ∧ typed w s_type_email email
                ∧ raises w s_wait_continue = None ∧ raises w s_click_continue = None
                ∧ raises w s_wait_password = None ∧ raises w s_clear_password = None
                ∧ typed w s_type_password password
                ∧ raises w s_wait_signin = None ∧ raises w s_click_signin = None
                ∧ raises w s_current_url_1 = None
                ∧ (str_contains (returned w s_current_url_1) (py "dashboard") = true
                   ∨ raises w s_current_url_2 = None
                     ∧ str_contains (returned w s_current_url_2) (py "jobs") = true))
  end.
Proof.
  pose proof (typing_result s_type_email email w) as Hemail.
  pose proof (typing_result s_type_password password w) as Hpassword.
  pose proof (tidy_no_exit _ (tidy_simulate_typing s_type_email email) w) as Xemail.
  pose proof (tidy_no_exit _ (tidy_simulate_typing s_type_password password) w)
    as Xpassword.
  unfold result_of at 1 2. login_unfold. login_simpl.
  destruct (raises w s_get_login) eqn:E0; login_simpl; [done |].
  destruct (raises w s_wait_email) eqn:E1; login_simpl; [leaf_false |].
  destruct (raises w s_clear_email) eqn:E2; login_simpl; [leaf_false |].
  rewrite (tidy_run _ (tidy_simulate_typing s_type_email email) w).
  destruct (result_of (simulate_typing s_type_email email) w) as [[]|[m|c]];
    login_simpl; [| leaf_false | by destruct (Xemail c)].
  destruct (raises w s_wait_continue) eqn:E3; login_simpl; [leaf_false |].
  destruct (raises w s_click_continue) eqn:E4; login_simpl; [leaf_false |].
  destruct (raises w s_wait_password) eqn:E5; login_simpl; [leaf_false |].
  destruct (raises w s_clear_password) eqn:E6; login_simpl; [leaf_false |].
  rewrite (tidy_run _ (tidy_simulate_typing s_type_password password) w).
  destruct (result_of (simulate_typing s_type_password password) w) as [[]|[m|c]];
    login_simpl; [| leaf_false | by destruct (Xpassword c)].
  destruct (raises w s_wait_signin) eqn:E7; login_simpl; [leaf_false |].
  destruct (raises w s_click_signin) eqn:E8; login_simpl; [leaf_false |].
  destruct (raises w s_current_url_1) eqn:E9; login_simpl; [leaf_false |].
  destruct (str_contains (returned w s_current_url_1) (py "dashboard")) eqn:U1;
    login_simpl; [leaf_true |].
  destruct (raises w s_current_url_2) eqn:E10; login_simpl; [leaf_false |].
  destruct (str_contains (returned w s_current_url_2) (py "jobs")) eqn:U2;
    login_simpl; [leaf_true |].
  destruct (raises w s_screenshot) eqn:E11; login_simpl; leaf_false.
Qed.

(** X10.  [login] returns [True] exactly when the login page loads, every
    wait, click and keystroke of the flow goes through, and the address read
    afterwards contains "dashboard" or, read a second time, "jobs". *)
Theorem login_true_iff driver email password w :
  result_of (login driver email password) w = Ok true
  ↔ raises w s_get_login = None
    ∧ raises w s_wait_email = None ∧ raises w s_clear_email = None
    ∧ typed w s_type_email email
    ∧ raises w s_wait_continue = None ∧ raises w s_click_continue = None
    ∧ raises w s_wait_password = None ∧ raises w s_clear_password = None
    ∧ typed w s_type_password password
    ∧ raises w s_wait_signin = None ∧ raises w s_click_signin = None
    ∧ raises w s_current_url_1 = None
    ∧ (str_contains (returned w s_current_url_1) (py "dashboard") = true
       ∨ raises w s_current_url_2 = None
         ∧ str_contains (returned w s_current_url_2) (py "jobs") = true).
Proof.
  pose proof (login_cases driver email password w) as H.
  destruct (raises w s_get_login) as [msg|].
  - rewrite H. split; [discriminate | by intros [[=] _]].
  - destruct H as (b & -> & Hb). rewrite <- Hb. split.
    + by intros [= ->].
    + by intros [_ ->].
Qed.

(** X11.  The only exception [login] lets through is that of loading the
    login page, which is outside its [try]: [login] raises exactly when that
    call raises, and the same exception; whatever fails later makes it
    return [False]. *)
Theorem login_raises_iff driver email password w e :
  result_of (login driver email password) w = Raise e
  ↔ ∃ msg, raises w s_get_login = Some msg ∧ e = PyException msg.
Proof.
  pose proof (login_cases driver email password w) as H.
  destruct (raises w s_get_login) as [msg|].
  - rewrite H. split.
    + intros [= <-]. by exists msg.
    + by intros (msg' & [= <-] & ->).
  - destruct H as (b & -> & _). split; [discriminate | by intros (msg & [=] & _)].
Qed.

(** X12.  [apply_easy] never raises: it returns [True] when the four calls
    that open the apply flow, the wait for "/apply/submit" and the three
    calls of the submit step all go through, and [False] in every other
    case; the Next control has no part in it. *)
Theorem apply_easy_true_iff driver w :
  (result_of (apply_easy driver) w = Ok true
   ∨ result_of (apply_easy driver) w = Ok false)
  ∧ (result_of (apply_easy driver) w = Ok true
     ↔ opens w
       ∧ raises w s_wait_url_submit = None ∧ raises w s_wait_submit_btn = None
       ∧ raises w s_scroll_submit = None ∧ raises w s_click_submit = None).
Proof.
  assert (opens w ∨ open_fails w) as [Ho | Hf].
  { unfold opens, open_fails.
    destruct (raises w s_wait_apply_btn); [right; left; by eexists |].
    destruct (raises w s_scroll_apply); [right; right; left; by eexists |].
    destruct (raises w s_click_apply); [right; right; right; left; by eexists |].
    destruct (raises w s_wait_url_apply); [right; right; right; right; by eexists |].
    by left. }
  - destruct (apply_easy_opened driver w Ho) as (_ & _ & Hres & Hiff).
    split; [done |]. rewrite Hiff. tauto.
  - rewrite (apply_easy_open_fails driver w Hf). split; [by right |].
    split; [discriminate |]. intros [(H1 & H2 & H3 & H4) _]. exfalso.
    destruct Hf as [[? H] | [[? H] | [[? H] | [? H]]]]; congruence.
Qed.

(** X13.  [apply_easy] clicks Submit only when everything before the click
    went through (the apply flow opened, the URL reached "/apply/submit",
    the Submit button was found and scrolled into view), and clicks Next
    only when the apply flow opened and the wait for the Next button
    succeeded. *)
Theorem clicks_only_when_ready driver w :
  (Did s_click_submit Click ∈ trace_of (apply_easy driver) w
   ↔ opens w ∧ raises w s_wait_url_submit = None
     ∧ raises w s_wait_submit_btn = None ∧ raises w s_scroll_submit = None)
  ∧ (Did s_click_next Click ∈ trace_of (apply_easy driver) w
     ↔ opens w ∧ raises w s_wait_next = None).
Proof.
  unfold opens, trace_of, apply_easy. run_unfold. run_simpl.
  destruct (raises w s_wait_apply_btn) eqn:E1; run_simpl;
    [split; (split; [intros H; spot H; discriminate H
                    | intros H; exfalso; intuition congruence]) |].
  destruct (raises w s_scroll_apply) eqn:E2; run_simpl;
    [split; (split; [intros H; spot H; discriminate H
                    | intros H; exfalso; intuition congruence]) |].
  destruct (raises w s_click_apply) eqn:E3; run_simpl;
    [split; (split; [intros H; spot H; discriminate H
                    | intros H; exfalso; intuition congruence]) |].
  destruct (raises w s_wait_url_apply) eqn:E4; run_simpl;
    [split; (split; [intros H; spot H; discriminate H
                    | intros H; exfalso; intuition congruence]) |].
  repeat match goal with
         | |- context [match raises ?w ?k with _ => _ end] =>
             destruct (raises w k) eqn:?; run_simpl
         end.
  all: split;
    (split;
     [ intros H; spot H; first [discriminate H | by split_and!]
     | intros H; first [solve [find_event] | exfalso; intuition congruence] ]).
Qed.

Lemma last_printed_snoc t line : last (printed (t ++ [Print line])) = Some line.
Proof. unfold printed. rewrite omap_app. simpl. apply last_snoc. Qed.

Lemma last_printed_quit t : last (printed (t ++ [Did s_quit Quit])) = last (printed t).
Proof. unfold printed. rewrite omap_app. simpl. by rewrite app_nil_r. Qed.

Section WithLower.

Variable str_lower : pystr → pystr.

(** The summary line and the exit status of the flattened [main]. *)
Lemma flat_summary job_url job_title email password w :
  let '(t, d, e) := try_block str_lower job_url email password w in
  let run := main_flat str_lower job_url job_title email password w in
  summary_line run.1
  = match e with
    | PyException msg => Some ([10] ++ py "FAILED: " ++ msg)
    | SystemExit _ => last (printed (banner job_title ++ t))
    end
  ∧ exit_status run.2 = match e with PyException _ => 1%Z | SystemExit code => code end.
Proof.
  unfold main_flat.
  destruct (try_block str_lower job_url email password w) as [[t d] e].
  cbn -[banner py printed]. split; [| done]. unfold summary_line. cbn [events].
  destruct e as [msg|code], d as [d|]; rewrite ?app_nil_r, ?app_nil_l.
  - rewrite !app_assoc, last_printed_quit. apply last_printed_snoc.
  - rewrite !app_assoc. apply last_printed_snoc.
  - by rewrite !app_assoc, last_printed_quit.
  - done.
Qed.

(** X14.  With fewer than three arguments after the script name, [main]
    prints the usage line and exits with status 1; it starts no browser and
    does nothing else. *)
Theorem too_few_arguments argv w :
  (length argv < 4)%nat →
  main str_lower argv w start = (State [Print usage] None, Raise (SystemExit 1)).
Proof.
  intros H. destruct argv as [|a0 [|a1 [|a2 [|a3 rest]]]]; simpl in H; try lia;
    reflexivity.
Qed.

(** X15.  With exactly three arguments after the script name the guard of
    [main] lets the run pass, and reading the password, [sys.argv[4]],
    raises IndexError: the script ends with a traceback and status 1 before
    it has printed anything or started a browser. *)
Theorem missing_password_is_an_index_error argv w :
  length argv = 4%nat →
  main str_lower argv w start
  = (start, Raise (PyException (py "list index out of range")))
  ∧ exit_status (main str_lower argv w start).2 = 1%Z.
Proof.
  intros H. destruct argv as [|a0 [|a1 [|a2 [|a3 [|a4 rest]]]]]; try discriminate H.
  split; reflexivity.
Qed.

(** An exception, with the text [msg], that leaves the [try] block of
    [main]: from [init_driver], from loading the login page, or from opening
    and scrolling the job page. *)
Lemma init_driver_raises w msg :
  raises w s_install = Some msg
  ∨ raises w s_install = None ∧ raises w s_chrome = Some msg →
  result_of init_driver w = Raise (PyException msg).
Proof.
  unfold result_of, init_driver. run_unfold. run_simpl.
  intros [H | [H1 H2]].
  - by rewrite H.
  - rewrite H1. run_simpl. by rewrite H2.
Qed.

(** X16.  An exception that leaves the [try] block of [main] (raised by
    [init_driver], by loading the login page, or by opening or scrolling the
    job page) is reported: the summary line is "FAILED: " followed by the
    text of the exception, after a line feed, and the exit status is 1. *)
Theorem unexpected_exception_is_reported script job_url job_title email password rest
    w msg :
  raises w s_install = Some msg
  ∨ raises w s_install = None ∧ raises w s_chrome = Some msg
  ∨ result_of init_driver w = Ok ChromeSession ∧ raises w s_get_login = Some msg
  ∨ logged_in email password w true ∧ raises w s_get_job = Some msg
  ∨ logged_in email password w true ∧ raises w s_get_job = None
    ∧ raises w s_scroll_page = Some msg →
  let run := main str_lower (script :: job_url :: job_title :: email :: password :: rest)
                  w start in
  summary_line run.1 = Some ([10] ++ py "FAILED: " ++ msg)
  ∧ exit_status run.2 = 1%Z.
Proof.
  intros H run. subst run. rewrite main_run.
  pose proof (flat_summary job_url job_title email password w) as Hflat.
  assert (∃ t d, try_block str_lower job_url email password w = (t, d, PyException msg))
    as (t & d & E).
  { unfold try_block.
    destruct H as [H | [H | [[HI H] | [[[HI HL] H] | [[HI HL] [H1 H2]]]]]].
    - rewrite (init_driver_raises w msg) by by left. eauto.
    - rewrite (init_driver_raises w msg) by by right. eauto.
    - rewrite HI. pose proof (login_cases ChromeSession email password w) as Hl.
      rewrite H in Hl. rewrite Hl. eauto.
    - rewrite HI, HL, H. eauto.
    - rewrite HI, HL, H1, H2. eauto. }
  by rewrite E in Hflat.
Qed.

(** X17.  Every run with its arguments ends with a summary line that agrees
    with the exit status: "SUCCESS: Applied" with status 0, "SKIPPED: Not
    eligible" with status 2, and with status 1 "FAILED: Login failed",
    "FAILED: Could not apply" or "FAILED: " followed by the text of an
    exception. *)
Theorem summary_agrees_with_status script job_url job_title email password rest w :
  let run := main str_lower (script :: job_url :: job_title :: email :: password :: rest)
                  w start in
  (exit_status run.2 = 0%Z ∧ summary_line run.1 = Some ([10] ++ py "SUCCESS: Applied"))
  ∨ (exit_status run.2 = 2%Z ∧ summary_line run.1 = Some (py "SKIPPED: Not eligible"))
  ∨ (exit_status run.2 = 1%Z
     ∧ (summary_line run.1 = Some (py "FAILED: Login failed")
        ∨ summary_line run.1 = Some ([10] ++ py "FAILED: Could not apply")
        ∨ ∃ msg, summary_line run.1 = Some ([10] ++ py "FAILED: " ++ msg))).
Proof.
  intros run. subst run. rewrite main_run.
  pose proof (flat_summary job_url job_title email password w) as Hflat.
  pose proof (tidy_no_exit _ tidy_init_driver w) as XI.
  pose proof (tidy_no_exit _ (tidy_login ChromeSession email password) w) as XL.
  pose proof (tidy_no_exit _ (tidy_check_eligibility str_lower ChromeSession) w) as XE.
  pose proof (tidy_no_exit _ (tidy_apply_easy ChromeSession) w) as XA.
  unfold try_block in Hflat.
  repeat match type of Hflat with
         | context [match result_of ?m ?w with _ => _ end] =>
             let c := fresh "c" in
             destruct (result_of m w) as [[]|[?|c]];
             [.. | match goal with X : no_exit (Raise (SystemExit c)) |- _ =>
                     by destruct (X c) end]
         | context [match raises ?w ?k with _ => _ end] => destruct (raises w k)
         end.
  all: cbn -[main_flat banner py printed trace_of] in Hflat; destruct Hflat as [-> ->].
  all: try (right; right; split; [done |]; right; right; by eexists).
  all: rewrite ?app_assoc, last_printed_snoc.
  - by left.
  - right; right. split; [done |]. right. by left.
  - right; left. done.
  - right; right. split; [done |]. by left.
Qed.

End WithLower.

End ApplyFacts.

(** ** More on the eligibility screen *)

Module ScreenFacts.

Import ApplyJob Runs Stages PyStrFacts RunFacts EligibilityFacts.

Lemma lstrip_whitespace p : Forall (λ c, is_whitespace c = true) p → lstrip p = [].
Proof. induction 1 as [|c p Hc _ IH]; simpl; [done |]. by rewrite Hc. Qed.

Lemma lstrip_after_whitespace p s :
  Forall (λ c, is_whitespace c = true) p → lstrip (p ++ s) = lstrip s.
Proof. induction 1 as [|c p Hc _ IH]; simpl; [done |]. by rewrite Hc. Qed.

Lemma lstrip_app s p :
  lstrip (s ++ p) = match lstrip s with
                    | [] => lstrip p
                    | _ :: _ => lstrip s ++ p
                    end.
Proof.
  induction s as [|c s IH]; simpl; [by destruct (lstrip p) |].
  by destruct (is_whitespace c).
Qed.

Lemma rstrip_before_whitespace s p :
  Forall (λ c, is_whitespace c = true) p → rstrip (s ++ p) = rstrip s.
Proof.
  intros H. unfold rstrip. rewrite rev_app_distr, lstrip_after_whitespace; [done |].
  apply Forall_forall. intros c Hc. rewrite Forall_forall in H. apply H.
  apply list_elem_of_In. apply list_elem_of_In in Hc. by apply in_rev.
Qed.

Lemma strip_padded line padded : padded_from line padded → strip padded = strip line.
Proof.
  intros (before & after & Hb & Ha & ->). unfold strip.
  rewrite lstrip_after_whitespace, lstrip_app by done.
  destruct (lstrip line) as [|c l]; [| by apply rstrip_before_whitespace].
  by rewrite lstrip_whitespace.
Qed.

Section WithLower.

Variable str_lower : pystr → pystr.

(** X18.  Whitespace around a line does not count: two overviews whose
    lines are the same up to whitespace put before and after each line get
    the same verdict. *)
Theorem verdict_ignores_padding driver w1 s1 w2 s2 overview1 overview2 :
  (get_overview_text str_lower driver w1 s1).2 = Ok overview1 →
  (get_overview_text str_lower driver w2 s2).2 = Ok overview2 →
  Forall2 padded_from (splitlines overview1) (splitlines overview2) →
  (check_eligibility str_lower driver w1 s1).2
  = (check_eligibility str_lower driver w2 s2).2.
Proof.
  intros H1 H2 Hp.
  rewrite (check_eligibility_result _ _ _ _ _ H1), (check_eligibility_result _ _ _ _ _ H2).
  assert (normalized_lines overview1 = normalized_lines overview2) as ->; [| done].
  unfold normalized_lines.
  induction Hp as [|l1 l2 ls1 ls2 Hl _ IH]; simpl; [done |].
  by rewrite IH, (strip_padded _ _ Hl).
Qed.

(** X19.  When the Job Details region is found but reading its text raises,
    [get_overview_text] returns the empty string all the same, and
    [check_eligibility] returns [True]. *)
Theorem unreadable_region_is_eligible driver w s :
  raises w s_find_section = None →
  is_Some (raises w s_section_text) →
  (get_overview_text str_lower driver w s).2 = Ok []
  ∧ (check_eligibility str_lower driver w s).2 = Ok true.
Proof.
  intros Hfind [msg Htext].
  assert ((get_overview_text str_lower driver w s).2 = Ok []) as H.
  { unfold get_overview_text, try_except_all, read, call, emit, outcome, answer,
      mbind, M_bind, mret, M_ret. by rewrite Hfind, Htext. }
  split; [done |]. by rewrite (check_eligibility_result _ _ _ _ _ H).
Qed.

End WithLower.

End ScreenFacts.

(** ** The further properties at sample inputs *)

Module MoreSamples.

Import ApplyJob Runs Stages ScrapeDice Scraper.
Import ScraperFacts StageFacts ApplyFacts ScreenFacts.

(** X3 at the sample board: the job of the first link of page 1. *)
Lemma scraped_job_wellformed_sample :
  let j := Job (py "https://www.dice.com/job-detail/abc") (py "Dev") (py "rust")
               (py "2024-01-01T00:00:00") (py "Pending") in
  j ∈ (scrape_dice_jobs sample_board (py "rust") (py "Remote") (py "ONE") 5).2
  ∧ startswith (job_url j) (py "http") = true
  ∧ str_contains (job_url j) (py "/job-detail/") = true.
Proof.
  intros j.
  assert (j ∈ (scrape_dice_jobs sample_board (py "rust") (py "Remote") (py "ONE") 5).2)
    as Hj by (vm_compute; left).
  destruct (scraped_job_wellformed sample_board (py "rust") (py "Remote") (py "ONE") 5 j Hj)
    as (_ & _ & Hu & Hd).
  exact (conj Hj (conj Hu Hd)).
Defined.

(** X5 with one filter row that has no keyword. *)
Lemma no_keyword_no_change_sample :
  scrape_filters (λ _, sample_board) 0 [blank_filter] = []
  ∧ main_of_filters (λ _, sample_board) [blank_filter] queue_A = queue_A.
Proof.
  apply (no_keyword_no_change (λ _, sample_board) [blank_filter] queue_A).
  intros row Hrow. apply list_elem_of_singleton in Hrow as ->. vm_compute; reflexivity.
Defined.

(** X8 where everything goes well: Submit is clicked, so the posting was
    found eligible. *)
Lemma stages_in_order_sample :
  Did s_click_submit Click ∈ events (ApplyJob.main ascii_lower sample_argv all_well start).1
  ∧ screened ascii_lower (py "me@example.com") (py "secret") all_well true.
Proof.
  assert (Did s_click_submit Click
          ∈ events (ApplyJob.main ascii_lower sample_argv all_well start).1) as Hin.
  { vm_compute. repeat first [apply list_elem_of_here | apply list_elem_of_further]. }
  split; [done |].
  exact (stages_in_order ascii_lower (py "apply_job.py")
           (py "https://www.dice.com/job-detail/1") (py "Engineer")
           (py "me@example.com") (py "secret") [] all_well s_click_submit Click Hin).
Defined.

(** X14 with the script name alone. *)
Lemma too_few_arguments_sample :
  ApplyJob.main ascii_lower [py "apply_job.py"] all_well start
  = (State [Print usage] None, Raise (SystemExit 1)).
Proof.
  apply (too_few_arguments ascii_lower [py "apply_job.py"] all_well). simpl. lia.
Defined.

(** X15 with url, title and e-mail but no password. *)
Lemma missing_password_is_an_index_error_sample :
  ApplyJob.main ascii_lower
    [py "apply_job.py"; py "https://www.dice.com/job-detail/1"; py "Engineer";
     py "me@example.com"] all_well start
  = (start, Raise (PyException (py "list index out of range"))).
Proof.
  apply (missing_password_is_an_index_error ascii_lower
           [py "apply_job.py"; py "https://www.dice.com/job-detail/1"; py "Engineer";
            py "me@example.com"] all_well).
  reflexivity.
Defined.

(** X16 where the job page fails to load. *)
Lemma unexpected_exception_is_reported_sample :
  let w := failing s_get_job (py "net::ERR_CONNECTION_RESET") all_well in
  let run := ApplyJob.main ascii_lower sample_argv w start in
  summary_line run.1 = Some ([10] ++ py "FAILED: " ++ py "net::ERR_CONNECTION_RESET")
  ∧ exit_status run.2 = 1%Z.
Proof.
  intros w run.
  apply (unexpected_exception_is_reported ascii_lower (py "apply_job.py")
           (py "https://www.dice.com/job-detail/1") (py "Engineer")
           (py "me@example.com") (py "secret") [] w (py "net::ERR_CONNECTION_RESET")).
  do 3 right. left. unfold logged_in. split_and!; vm_compute; reflexivity.
Defined.

(** X18 at two postings that differ by the whitespace around one line. *)
Lemma verdict_ignores_padding_sample :
  (check_eligibility ascii_lower ChromeSession plain_posting start).2
  = (check_eligibility ascii_lower ChromeSession padded_posting start).2.
Proof.
  apply (verdict_ignores_padding ascii_lower ChromeSession
           plain_posting start padded_posting start
           (py "remote" ++ [10] ++ py "full-time" ++ [10] ++ py "on site")
           (py "remote" ++ [10] ++ py "  full-time" ++ [9; 32] ++ [10] ++ py "on site")).
  - vm_compute; reflexivity.
  - vm_compute; reflexivity.
  - change (Forall2 padded_from
              [py "remote"; py "full-time"; py "on site"]
              [py "remote"; py "  full-time" ++ [9; 32]; py "on site"]).
    repeat constructor.
    + exists [], []. split_and!; [constructor | constructor |].
      by rewrite app_nil_r.
    + exists (py "  "), [9; 32]. split_and!; [| | reflexivity]; by repeat constructor.
    + exists [], []. split_and!; [constructor | constructor |].
      by rewrite app_nil_r.
Defined.

(** X19 where reading the region raises. *)
Lemma unreadable_region_is_eligible_sample :
  (get_overview_text ascii_lower ChromeSession stale_region start).2 = Ok []
  ∧ (check_eligibility ascii_lower ChromeSession stale_region start).2 = Ok true.
Proof.
  apply (unreadable_region_is_eligible ascii_lower ChromeSession stale_region start).
  - vm_compute; reflexivity.
  - exists (py "stale element reference"). vm_compute; reflexivity.
Defined.

End MoreSamples.
